(** * Security-policy rule validation (tls/s2n_security_rules.c)

    A shallow embedding of the rule registry, the rule selector, the policy
    validator and the result accumulator of s2n-tls, followed by the
    properties its specification states about them.

    Conventions of the embedding:
    - a nullable C pointer is an [option]; [RESULT_ENSURE_REF] is a match on it;
    - [S2N_RESULT] is the type [s2n_result]; [RESULT_GUARD] is the bind of
      the monad [M] below, which threads the [struct s2n_security_rule_result]
      that every function of the file receives by pointer and mutates in
      place, and keeps that state when a call fails;
    - a preference list (an array and its [count] field) is a [list];
    - [size_t] values are [nat] (loop counters) or [N] (the rule flags). *)

From Stdlib Require Import List String Ascii NArith Arith Bool Lia Sorted.
From Stdlib Require Import DecimalString HexadecimalString.
Import ListNotations.

Open Scope string_scope.
Open Scope list_scope.
Open Scope nat_scope.

(** ** Results and errors (utils/s2n_result.h, utils/s2n_safety.h) *)

Inductive s2n_error : Type :=
| S2N_ERR_NULL              (* RESULT_ENSURE_REF on a null pointer *)
| S2N_ERR_SAFETY            (* RESULT_ENSURE_LT, RESULT_ENSURE_INCLUSIVE_RANGE *)
| S2N_ERR_ALLOC             (* the allocator refused to grow a buffer *)
| S2N_ERR_STUFFER_IS_FULL.  (* write past the end of a buffer that cannot grow *)

Inductive s2n_result (A : Type) : Type :=
| S2N_RESULT_OK (a : A)
| S2N_RESULT_ERROR (e : s2n_error).

Arguments S2N_RESULT_OK {A} a.
Arguments S2N_RESULT_ERROR {A} e.

Definition s2n_result_is_ok {A} (r : s2n_result A) : bool :=
  match r with S2N_RESULT_OK _ => true | S2N_RESULT_ERROR _ => false end.

(** What a call does: it returns an [S2N_RESULT], or it reads through a
    pointer past the end of the rule table, which the C language leaves
    undefined. *)
Inductive outcome (A : Type) : Type :=
| Returns (r : s2n_result A)
| Undefined.

Arguments Returns {A} r.
Arguments Undefined {A}.

Definition returns_ok {A} (o : outcome A) : bool :=
  match o with Returns (S2N_RESULT_OK _) => true | _ => false end.

Definition returns_error {A} (o : outcome A) : bool :=
  match o with Returns (S2N_RESULT_ERROR _) => true | _ => false end.

Definition RESULT_ENSURE_REF {A} (p : option A) : s2n_result A :=
  match p with
  | Some a => S2N_RESULT_OK a
  | None => S2N_RESULT_ERROR S2N_ERR_NULL
  end.

(** ** The primitive catalogs, as far as this file reads them *)

Record s2n_kex : Type := { is_ephemeral : bool }.

Record s2n_cipher_suite : Type := {
  cipher_suite_name : string;                (* ->name *)
  key_exchange_alg : option s2n_kex
}.

Record s2n_signature_scheme : Type := { iana_value : N }.

Record s2n_ecc_named_curve : Type := { curve_name : string }.

Record s2n_cipher_preferences : Type := {
  suites : list (option s2n_cipher_suite)    (* suites[0 .. count-1] *)
}.

Record s2n_signature_preferences : Type := {
  signature_schemes : list (option s2n_signature_scheme)
}.

Record s2n_ecc_preferences : Type := {
  ecc_curves : list (option s2n_ecc_named_curve)
}.

(** [version] stands for what [s2n_security_policy_get_version] finds for the
    policy; see that function below. *)
Record s2n_security_policy : Type := {
  version : option string;
  cipher_preferences : option s2n_cipher_preferences;
  signature_preferences : option s2n_signature_preferences;
  certificate_signature_preferences : option s2n_signature_preferences;
  ecc_preferences : option s2n_ecc_preferences;
  rules : N
}.

(** Modelled from the spec: [s2n_security_policy_get_version] lives in
    tls/s2n_security_policies.c, outside this file.  The spec gives a policy
    "an optional display name" whose accessor "may report unavailable"; the
    out-parameter keeps its previous content when the lookup fails. *)
Definition s2n_security_policy_get_version (policy : s2n_security_policy)
    (version_out : option string) : s2n_result unit * option string :=
  match version policy with
  | Some v => (S2N_RESULT_OK tt, Some v)
  | None => (S2N_RESULT_ERROR S2N_ERR_SAFETY, version_out)
  end.

(** ** A rule: a name and four validators

    A validator receives the primitive by pointer and the cell [*valid]
    (given here by its content before the call); it answers with its
    [S2N_RESULT] and, on success, the content of the cell after the call. *)

Record s2n_security_rule : Type := {
  rule_name : string;                        (* ->name *)
  validate_cipher_suite : option s2n_cipher_suite -> bool -> s2n_result bool;
  validate_sig_scheme : option s2n_signature_scheme -> bool -> s2n_result bool;
  validate_cert_sig_scheme : option s2n_signature_scheme -> bool -> s2n_result bool;
  validate_curve : option s2n_ecc_named_curve -> bool -> s2n_result bool
}.

(** ** The output buffer (stuffer/s2n_stuffer.h) *)

Record s2n_stuffer : Type := {
  stuffer_data : string;                     (* the bytes written so far *)
  growable : bool
}.

Definition s2n_stuffer_zero : s2n_stuffer :=
  {| stuffer_data := ""; growable := false |}.

(** ** The accumulator *)

Record s2n_security_rule_result : Type := {
  found_error : bool;
  write_output : bool;
  output : s2n_stuffer
}.

Definition s2n_security_rule_result_zero : s2n_security_rule_result :=
  {| found_error := false; write_output := false; output := s2n_stuffer_zero |}.

Definition set_found_error (b : bool) (r : s2n_security_rule_result) :=
  {| found_error := b; write_output := write_output r; output := output r |}.

Definition set_write_output (b : bool) (r : s2n_security_rule_result) :=
  {| found_error := found_error r; write_output := b; output := output r |}.

Definition set_output (o : s2n_stuffer) (r : s2n_security_rule_result) :=
  {| found_error := found_error r; write_output := write_output r; output := o |}.

(** ** The monad of the file: the accumulator as state, [S2N_RESULT] on top *)

Definition M (A : Type) : Type :=
  s2n_security_rule_result -> outcome A * s2n_security_rule_result.

Definition ret {A} (a : A) : M A := fun r => (Returns (S2N_RESULT_OK a), r).

Definition bind {A B} (m : M A) (k : A -> M B) : M B :=
  fun r =>
    match m r with
    | (Returns (S2N_RESULT_OK a), r') => k a r'
    | (Returns (S2N_RESULT_ERROR e), r') => (Returns (S2N_RESULT_ERROR e), r')
    | (Undefined, r') => (Undefined, r')
    end.

(** A call that does not touch the accumulator. *)
Definition lift {A} (x : s2n_result A) : M A := fun r => (Returns x, r).

Definition undefined {A} : M A := fun r => (Undefined, r).

Definition get_result : M s2n_security_rule_result :=
  fun r => (Returns (S2N_RESULT_OK r), r).

Definition modify_result (f : s2n_security_rule_result -> s2n_security_rule_result)
  : M unit := fun r => (Returns (S2N_RESULT_OK tt), f r).

(** A guarded call on [&result->output]. *)
Definition on_output (f : s2n_stuffer -> s2n_result s2n_stuffer) : M unit :=
  fun r =>
    match f (output r) with
    | S2N_RESULT_OK o => (Returns (S2N_RESULT_OK tt), set_output o r)
    | S2N_RESULT_ERROR e => (Returns (S2N_RESULT_ERROR e), r)
    end.

Declare Scope s2n_scope.
Delimit Scope s2n_scope with s2n.
Notation "x <- m ;; k" := (bind m (fun x => k))
  (at level 100, m at next level, right associativity) : s2n_scope.
Notation "m ;; k" := (bind m (fun _ => k))
  (at level 100, right associativity) : s2n_scope.
Open Scope s2n_scope.

(** The loop [for (size_t i = start; i < start + count; i++) body(i, list[i])]. *)
Fixpoint for_each {A} (body : nat -> A -> M unit) (i : nat) (l : list A) : M unit :=
  match l with
  | [] => ret tt
  | x :: rest => body i x ;; for_each body (S i) rest
  end.

(** ** printf

    The two format strings of the file use [%s], [%x] and [%i] only. *)

Inductive printf_arg : Type :=
| VaString (s : string)
| VaInt (n : N).

(** [%x] prints an [unsigned int]: the low 32 bits, in lower-case hexadecimal. *)
Definition render_x (n : N) : string :=
  HexadecimalString.NilZero.string_of_uint (N.to_hex_uint (n mod 2 ^ 32)%N).

(** [%i] prints an [int]: the low 32 bits, read as a signed number. *)
Definition render_i (n : N) : string :=
  let w := (n mod 2 ^ 32)%N in
  if (w <? 2 ^ 31)%N
  then DecimalString.NilZero.string_of_uint (N.to_uint w)
  else ("-" ++ DecimalString.NilZero.string_of_uint (N.to_uint (2 ^ 32 - w)))%string.

(** [None] stands for a negative return of [vsnprintf]. *)
Fixpoint vsnprintf (format : string) (vargs : list printf_arg) : option string :=
  match format with
  | EmptyString => Some EmptyString
  | String c rest =>
      if (c =? "%")%char then
        match rest with
        | EmptyString => None
        | String d rest' =>
            match vargs with
            | VaString s :: vargs' =>
                if (d =? "s")%char
                then option_map (append s) (vsnprintf rest' vargs')
                else None
            | VaInt n :: vargs' =>
                if (d =? "x")%char
                then option_map (append (render_x n)) (vsnprintf rest' vargs')
                else if (d =? "i")%char
                then option_map (append (render_i n)) (vsnprintf rest' vargs')
                else None
            | [] => None
            end
        end
      else option_map (String c) (vsnprintf rest vargs)
  end.

Definition newline : string := String "010" EmptyString.

Section Engine.

(** Whether the allocator grants a buffer of the given size in bytes. *)
Variable s2n_realloc_ok : nat -> bool.

(** Modelled from the spec: the stuffer (stuffer/s2n_stuffer.c) is outside
    this file.  The spec asks for "a growable append-only text buffer"
    whose "growth failure during capture is a hard error"; [initCapture]
    "allocates an empty growable buffer" and [release] "frees any buffer
    (no-op if none)". *)
Definition s2n_stuffer_growable_alloc (size : nat) : s2n_result s2n_stuffer :=
  if s2n_realloc_ok size
  then S2N_RESULT_OK {| stuffer_data := ""; growable := true |}
  else S2N_RESULT_ERROR S2N_ERR_ALLOC.

Definition s2n_stuffer_write (bytes : string) (st : s2n_stuffer)
  : s2n_result s2n_stuffer :=
  if negb (growable st) then S2N_RESULT_ERROR S2N_ERR_STUFFER_IS_FULL
  else if s2n_realloc_ok (String.length (stuffer_data st) + String.length bytes)
  then S2N_RESULT_OK {| stuffer_data := (stuffer_data st ++ bytes)%string;
                        growable := growable st |}
  else S2N_RESULT_ERROR S2N_ERR_ALLOC.

Definition s2n_stuffer_vprintf (format : string) (vargs : list printf_arg)
    (st : s2n_stuffer) : s2n_result s2n_stuffer :=
  match vsnprintf format vargs with
  | Some str => s2n_stuffer_write str st
  | None => S2N_RESULT_ERROR S2N_ERR_SAFETY
  end.

Definition s2n_stuffer_write_char (c : ascii) (st : s2n_stuffer)
  : s2n_result s2n_stuffer :=
  s2n_stuffer_write (String c EmptyString) st.

Definition s2n_stuffer_free (st : s2n_stuffer) : s2n_result s2n_stuffer :=
  S2N_RESULT_OK s2n_stuffer_zero.

(** ** s2n_security_rule_result_process

    [RESULT_ENSURE_REF(result)] holds here and in the functions below: the
    result is the state of the monad. *)

Definition s2n_security_rule_result_process (condition : bool)
    (format : string) (vargs : list printf_arg) : M unit :=
  if condition then ret tt
  else
    modify_result (set_found_error true) ;;
    result <- get_result ;;
    if negb (write_output result) then ret tt
    else
      on_output (s2n_stuffer_vprintf format vargs) ;;
      on_output (s2n_stuffer_write_char "010") ;;
      ret tt.

(** ** s2n_security_rule_validate_policy *)

Definition error_msg_format_name : string := "%s: policy %s: %s: %s (#%i)".
Definition error_msg_format_iana : string := "%s: policy %s: %s: %x (#%i)".

(** The bodies of the four loops, for the entry at position [i]. *)

Definition validate_cipher_suite_at (rule : s2n_security_rule)
    (policy_name : string) (i : nat) (cipher_suite : option s2n_cipher_suite)
  : M unit :=
  cs <- lift (RESULT_ENSURE_REF cipher_suite) ;;
  is_valid <- lift (validate_cipher_suite rule cipher_suite false) ;;
  s2n_security_rule_result_process is_valid error_msg_format_name
    [VaString (rule_name rule); VaString policy_name; VaString "cipher suite";
     VaString (cipher_suite_name cs); VaInt (N.of_nat (i + 1))].

Definition validate_sig_scheme_at (rule : s2n_security_rule)
    (policy_name : string) (i : nat) (sig_scheme : option s2n_signature_scheme)
  : M unit :=
  ss <- lift (RESULT_ENSURE_REF sig_scheme) ;;
  is_valid <- lift (validate_sig_scheme rule sig_scheme false) ;;
  s2n_security_rule_result_process is_valid error_msg_format_iana
    [VaString (rule_name rule); VaString policy_name; VaString "signature scheme";
     VaInt (iana_value ss); VaInt (N.of_nat (i + 1))].

Definition validate_cert_sig_scheme_at (rule : s2n_security_rule)
    (policy_name : string) (i : nat) (sig_scheme : option s2n_signature_scheme)
  : M unit :=
  ss <- lift (RESULT_ENSURE_REF sig_scheme) ;;
  is_valid <- lift (validate_cert_sig_scheme rule sig_scheme false) ;;
  s2n_security_rule_result_process is_valid error_msg_format_iana
    [VaString (rule_name rule); VaString policy_name;
     VaString "certificate signature scheme";
     VaInt (iana_value ss); VaInt (N.of_nat (i + 1))].

Definition validate_curve_at (rule : s2n_security_rule)
    (policy_name : string) (i : nat) (curve : option s2n_ecc_named_curve)
  : M unit :=
  c <- lift (RESULT_ENSURE_REF curve) ;;
  is_valid <- lift (validate_curve rule curve false) ;;
  s2n_security_rule_result_process is_valid error_msg_format_name
    [VaString (rule_name rule); VaString policy_name; VaString "curve";
     VaString (curve_name c); VaInt (N.of_nat (i + 1))].

(** [policy_name] after the ignored call and the [NULL] test. *)
Definition policy_name_of (policy : s2n_security_policy) : string :=
  match snd (s2n_security_policy_get_version policy None) with
  | Some n => n
  | None => "unnamed"
  end.

Definition s2n_security_rule_validate_policy (rule : option s2n_security_rule)
    (policy : option s2n_security_policy) : M unit :=
  rule <- lift (RESULT_ENSURE_REF rule) ;;
  policy <- lift (RESULT_ENSURE_REF policy) ;;
  let policy_name := policy_name_of policy in
  cipher_prefs <- lift (RESULT_ENSURE_REF (cipher_preferences policy)) ;;
  for_each (validate_cipher_suite_at rule policy_name) 0 (suites cipher_prefs) ;;
  sig_prefs <- lift (RESULT_ENSURE_REF (signature_preferences policy)) ;;
  for_each (validate_sig_scheme_at rule policy_name) 0 (signature_schemes sig_prefs) ;;
  match certificate_signature_preferences policy with
  | Some cert_sig_prefs =>
      for_each (validate_cert_sig_scheme_at rule policy_name) 0
        (signature_schemes cert_sig_prefs)
  | None => ret tt
  end ;;
  ecc_prefs <- lift (RESULT_ENSURE_REF (ecc_preferences policy)) ;;
  for_each (validate_curve_at rule policy_name) 0 (ecc_curves ecc_prefs) ;;
  ret tt.

(** ** s2n_security_policy_get_security_rules

    [rules_count_max] is [S2N_SECURITY_RULES_COUNT] and [rule_table] is
    [security_rule_definitions]; both get their values after the section.
    A selected rule is the pointer [&security_rule_definitions[rule]], kept
    as its offset [rule] in the table.  The array [rules] and the counter
    [count] are one list: [rules[count] = p; count++] appends [p]. *)

Variable rules_count_max : nat.
Variable rule_table : list s2n_security_rule.

(** The iterations [rule, rule + 1, ..., rule + n - 1] of the loop. *)
Fixpoint get_security_rules_loop (n : nat) (rule : nat) (flags : N)
    (max_rules_count : nat) (rules : list nat) : s2n_result (list nat) :=
  match n with
  | O => S2N_RESULT_OK rules
  | S n' =>
      let is_set := negb (flags mod 2 =? 0)%N in
      let flags := N.shiftr flags 1 in
      if negb is_set
      then get_security_rules_loop n' (S rule) flags max_rules_count rules
      else if negb ((0 <=? rule) && (rule <=? List.length rule_table))
      then S2N_RESULT_ERROR S2N_ERR_SAFETY
      else if negb (List.length rules <? max_rules_count)
      then S2N_RESULT_ERROR S2N_ERR_SAFETY
      else get_security_rules_loop n' (S rule) flags max_rules_count
             (rules ++ [rule])
  end.

Definition s2n_security_policy_get_security_rules
    (policy : option s2n_security_policy) (max_rules_count : nat)
  : s2n_result (list nat) :=
  match policy with
  | None => S2N_RESULT_ERROR S2N_ERR_NULL
  | Some p => get_security_rules_loop rules_count_max 0 (rules p) max_rules_count []
  end.

(** ** s2n_security_policy_validate_security_rules *)

(** [s2n_security_rule_validate_policy] on a pointer [rule] that points one
    past the end of the table.  The pointer is not null, so
    [RESULT_ENSURE_REF(rule)] passes, and nothing is read through it outside
    the loops: the null tests on the policy and on its lists, and the policy
    name, go as they do for a rule of the table.  The body of each loop tests
    its entry and then calls [rule->validate_...], which reads past the
    table. *)
Definition validate_entry_past_the_table {A} (i : nat) (entry : option A) : M unit :=
  lift (RESULT_ENSURE_REF entry) ;;
  undefined.

Definition validate_policy_past_the_table (policy : option s2n_security_policy)
  : M unit :=
  policy <- lift (RESULT_ENSURE_REF policy) ;;
  cipher_prefs <- lift (RESULT_ENSURE_REF (cipher_preferences policy)) ;;
  for_each validate_entry_past_the_table 0 (suites cipher_prefs) ;;
  sig_prefs <- lift (RESULT_ENSURE_REF (signature_preferences policy)) ;;
  for_each validate_entry_past_the_table 0 (signature_schemes sig_prefs) ;;
  match certificate_signature_preferences policy with
  | Some cert_sig_prefs =>
      for_each validate_entry_past_the_table 0 (signature_schemes cert_sig_prefs)
  | None => ret tt
  end ;;
  ecc_prefs <- lift (RESULT_ENSURE_REF (ecc_preferences policy)) ;;
  for_each validate_entry_past_the_table 0 (ecc_curves ecc_prefs) ;;
  ret tt.

(** [s2n_security_rule_validate_policy(rules[i], policy, result)]: [rules[i]]
    is an entry of the table or, when the offset equals the number of
    entries, the pointer one past its end (the range check of the selector
    lets no larger offset through). *)
Definition validate_selected_rule (policy : option s2n_security_policy)
    (i : nat) (rule_ptr : nat) : M unit :=
  match nth_error rule_table rule_ptr with
  | Some rule => s2n_security_rule_validate_policy (Some rule) policy
  | None => validate_policy_past_the_table policy
  end.

Definition s2n_security_policy_validate_security_rules
    (policy : option s2n_security_policy) : M unit :=
  rules <- lift (s2n_security_policy_get_security_rules policy rules_count_max) ;;
  for_each (validate_selected_rule policy) 0 rules ;;
  ret tt.

(** ** s2n_security_rule_result_init_output, s2n_security_rule_result_free *)

Definition s2n_security_rule_result_init_output : M unit :=
  on_output (fun _ => s2n_stuffer_growable_alloc 0) ;;
  modify_result (set_write_output true) ;;
  ret tt.

Definition s2n_security_rule_result_free : M unit :=
  on_output s2n_stuffer_free ;;
  modify_result (fun _ => s2n_security_rule_result_zero) ;;
  ret tt.

End Engine.

(** ** The rule table of the file *)

Definition s2n_security_rule_validate_forward_secret
    (cipher_suite : option s2n_cipher_suite) (valid : bool) : s2n_result bool :=
  match cipher_suite with
  | None => S2N_RESULT_ERROR S2N_ERR_NULL
  | Some cs =>
      match key_exchange_alg cs with
      | None => S2N_RESULT_ERROR S2N_ERR_NULL
      | Some kex => S2N_RESULT_OK (is_ephemeral kex)
      end
  end.

(** [RESULT_ENSURE_REF(valid)] holds: the cell [valid] exists. *)
Definition s2n_security_rule_all_sig_schemes
    (sig_scheme : option s2n_signature_scheme) (valid : bool) : s2n_result bool :=
  S2N_RESULT_OK true.

Definition s2n_security_rule_all_curves
    (curve : option s2n_ecc_named_curve) (valid : bool) : s2n_result bool :=
  S2N_RESULT_OK true.

Definition perfect_forward_secrecy : s2n_security_rule :=
  {| rule_name := "Perfect Forward Secrecy";
     validate_cipher_suite := s2n_security_rule_validate_forward_secret;
     validate_sig_scheme := s2n_security_rule_all_sig_schemes;
     validate_cert_sig_scheme := s2n_security_rule_all_sig_schemes;
     validate_curve := s2n_security_rule_all_curves |}.

(** Modelled from the spec: the enumeration [s2n_security_rule_id] is declared
    in tls/s2n_security_rules.h, outside this file.  The registry "defines
    exactly one entry" and "the rule identifier space is bounded by a fixed
    count R": the one identifier is 0 and R is 1. *)
Definition S2N_PERFECT_FORWARD_SECRECY : nat := 0.
Definition S2N_SECURITY_RULES_COUNT : nat := 1.

(** The designated initialiser [[S2N_PERFECT_FORWARD_SECRECY] = {...}]. *)
Definition security_rule_definitions : list s2n_security_rule :=
  [perfect_forward_secrecy].

(** ** The vocabulary of the specification

    The definitions below follow the words of the specification; the
    theorems compare them with the functions above. *)

(** The entries of each category; none when the policy has no such list. *)
Definition cipher_suite_entries (p : s2n_security_policy) :=
  match cipher_preferences p with Some c => suites c | None => [] end.

Definition sig_scheme_entries (p : s2n_security_policy) :=
  match signature_preferences p with Some s => signature_schemes s | None => [] end.

Definition cert_sig_scheme_entries (p : s2n_security_policy) :=
  match certificate_signature_preferences p with
  | Some s => signature_schemes s
  | None => []
  end.

Definition curve_entries (p : s2n_security_policy) :=
  match ecc_preferences p with Some e => ecc_curves e | None => [] end.

(** The entries of a list with their positions [i], [i + 1], ... *)
Fixpoint positions_from {A} (i : nat) (l : list A) : list (nat * A) :=
  match l with
  | [] => []
  | x :: rest => (i, x) :: positions_from (S i) rest
  end.

(** The predicate "returned false". *)
Definition predicate_false (r : s2n_result bool) : bool :=
  match r with S2N_RESULT_OK false => true | _ => false end.

(** The entries whose predicate returned false, with their positions. *)
Definition failed_from {A} (validate : option A -> bool -> s2n_result bool)
    (i : nat) (entries : list (option A)) : list (nat * A) :=
  flat_map
    (fun ie => match snd ie with
               | Some a =>
                   if predicate_false (validate (Some a) false)
                   then [(fst ie, a)] else []
               | None => []
               end)
    (positions_from i entries).

(** Positions are reported 1-based. *)
Definition failed {A} (validate : option A -> bool -> s2n_result bool)
    (entries : list (option A)) : list (nat * A) :=
  failed_from validate 1 entries.

(** "<rule>: policy <policy>: <category>: <value> (#<index>)" *)
Definition diagnostic_line (rule policy category value : string) (index : nat)
  : string :=
  (rule ++ ": policy " ++ policy ++ ": " ++ category ++ ": " ++ value
        ++ " (#" ++ render_i (N.of_nat index) ++ ")")%string.

Definition cipher_suite_lines (rule : s2n_security_rule) (p : s2n_security_policy)
  : list string :=
  map (fun ia => diagnostic_line (rule_name rule) (policy_name_of p) "cipher suite"
                   (cipher_suite_name (snd ia)) (fst ia))
      (failed (validate_cipher_suite rule) (cipher_suite_entries p)).

Definition sig_scheme_lines (rule : s2n_security_rule) (p : s2n_security_policy)
  : list string :=
  map (fun ia => diagnostic_line (rule_name rule) (policy_name_of p) "signature scheme"
                   (render_x (iana_value (snd ia))) (fst ia))
      (failed (validate_sig_scheme rule) (sig_scheme_entries p)).

Definition cert_sig_scheme_lines (rule : s2n_security_rule) (p : s2n_security_policy)
  : list string :=
  map (fun ia => diagnostic_line (rule_name rule) (policy_name_of p)
                   "certificate signature scheme"
                   (render_x (iana_value (snd ia))) (fst ia))
      (failed (validate_cert_sig_scheme rule) (cert_sig_scheme_entries p)).

Definition curve_lines (rule : s2n_security_rule) (p : s2n_security_policy)
  : list string :=
  map (fun ia => diagnostic_line (rule_name rule) (policy_name_of p) "curve"
                   (curve_name (snd ia)) (fst ia))
      (failed (validate_curve rule) (curve_entries p)).

(** One line per (rule, category entry) pair that failed, in the order of the
    categories and of the entries. *)
Definition violation_lines (rule : s2n_security_rule) (p : s2n_security_policy)
  : list string :=
  cipher_suite_lines rule p ++ sig_scheme_lines rule p
    ++ cert_sig_scheme_lines rule p ++ curve_lines rule p.

(** The number of (category entry) pairs of one rule that failed. *)
Definition failed_count (rule : s2n_security_rule) (p : s2n_security_policy) : nat :=
  List.length (failed (validate_cipher_suite rule) (cipher_suite_entries p))
  + List.length (failed (validate_sig_scheme rule) (sig_scheme_entries p))
  + List.length (failed (validate_cert_sig_scheme rule) (cert_sig_scheme_entries p))
  + List.length (failed (validate_curve rule) (curve_entries p)).

(** Every entry is there and its predicate answers. *)
Definition evaluable {A} (validate : option A -> bool -> s2n_result bool)
    (entries : list (option A)) : bool :=
  forallb (fun e => match e with
                    | Some _ => s2n_result_is_ok (validate e false)
                    | None => false
                    end) entries.

Definition is_some {A} (o : option A) : bool :=
  match o with Some _ => true | None => false end.

(** The mandatory lists are present and every entry of every present list
    can be evaluated by the rule. *)
Definition policy_evaluable (rule : s2n_security_rule) (p : s2n_security_policy)
  : bool :=
  is_some (cipher_preferences p) && is_some (signature_preferences p)
  && is_some (ecc_preferences p)
  && evaluable (validate_cipher_suite rule) (cipher_suite_entries p)
  && evaluable (validate_sig_scheme rule) (sig_scheme_entries p)
  && evaluable (validate_cert_sig_scheme rule) (cert_sig_scheme_entries p)
  && evaluable (validate_curve rule) (curve_entries p).

(** The text of some lines, each followed by one line break. *)
Fixpoint text_of_lines (lines : list string) : string :=
  match lines with
  | [] => EmptyString
  | l :: rest => (l ++ newline ++ text_of_lines rest)%string
  end.

(** The accumulator after the violations with the given lines. *)
Definition record_lines (lines : list string) (r : s2n_security_rule_result)
  : s2n_security_rule_result :=
  match lines with
  | [] => r
  | _ :: _ =>
      {| found_error := true;
         write_output := write_output r;
         output :=
           if write_output r
           then {| stuffer_data := (stuffer_data (output r) ++ text_of_lines lines)%string;
                   growable := growable (output r) |}
           else output r |}
  end.

(** The accumulator captures: [s2n_security_rule_result_init_output]
    allocated its buffer. *)
Definition capturing (r : s2n_security_rule_result) : bool :=
  write_output r && growable (output r).

(** The buffer of a capturing accumulator can grow. *)
Definition writable (r : s2n_security_rule_result) : Prop :=
  write_output r = true -> growable (output r) = true.

(** The identifiers below [count] whose bit is set, in ascending order. *)
Definition set_bits_below (count : nat) (flags : N) : list nat :=
  filter (fun rule => N.testbit flags (N.of_nat rule)) (seq 0 count).

(** Selection, on the list of the identifiers whose bit is set: each must
    pass the range check of the loop and find room in the array. *)
Fixpoint select_offsets (table_len max_rules_count : nat) (ids : list nat)
    (rules : list nat) : s2n_result (list nat) :=
  match ids with
  | [] => S2N_RESULT_OK rules
  | rule :: rest =>
      if negb (rule <=? table_len) then S2N_RESULT_ERROR S2N_ERR_SAFETY
      else if negb (List.length rules <? max_rules_count)
      then S2N_RESULT_ERROR S2N_ERR_SAFETY
      else select_offsets table_len max_rules_count rest (rules ++ [rule])
  end.

(** The table entries behind a list of offsets. *)
Definition rules_at (table : list s2n_security_rule) (offsets : list nat)
  : list s2n_security_rule :=
  flat_map (fun i => match nth_error table i with Some r => [r] | None => [] end)
           offsets.

(** The lines of all the active rules, and the number of (rule, category
    entry) pairs that failed, summed over the active rules. *)
Definition active_violation_lines (active : list s2n_security_rule)
    (p : s2n_security_policy) : list string :=
  flat_map (fun rule => violation_lines rule p) active.

Definition active_failed_count (active : list s2n_security_rule)
    (p : s2n_security_policy) : nat :=
  list_sum (map (fun rule => failed_count rule p) active).

(** A policy with other rule flags, or another certificate-signature list. *)
Definition with_rules (flags : N) (p : s2n_security_policy) : s2n_security_policy :=
  {| version := version p;
     cipher_preferences := cipher_preferences p;
     signature_preferences := signature_preferences p;
     certificate_signature_preferences := certificate_signature_preferences p;
     ecc_preferences := ecc_preferences p;
     rules := flags |}.

Definition with_certificate_signature_preferences
    (c : option s2n_signature_preferences) (p : s2n_security_policy)
  : s2n_security_policy :=
  {| version := version p;
     cipher_preferences := cipher_preferences p;
     signature_preferences := signature_preferences p;
     certificate_signature_preferences := c;
     ecc_preferences := ecc_preferences p;
     rules := rules p |}.

(** ** The policies of the examples *)

Definition policy_of_rules (flags : N) : s2n_security_policy :=
  {| version := None;
     cipher_preferences := Some {| suites := [] |};
     signature_preferences := Some {| signature_schemes := [] |};
     certificate_signature_preferences := None;
     ecc_preferences := Some {| ecc_curves := [] |};
     rules := flags |}.

Definition DHE_SUITE : s2n_cipher_suite :=
  {| cipher_suite_name := "DHE_SUITE";
     key_exchange_alg := Some {| is_ephemeral := true |} |}.

Definition RSA_SUITE : s2n_cipher_suite :=
  {| cipher_suite_name := "RSA_SUITE";
     key_exchange_alg := Some {| is_ephemeral := false |} |}.

Definition test_all_ciphers (sig_scheme : s2n_signature_scheme)
    (curve : s2n_ecc_named_curve) : s2n_security_policy :=
  {| version := Some "test_all_ciphers";
     cipher_preferences := Some {| suites := [Some DHE_SUITE; Some RSA_SUITE] |};
     signature_preferences := Some {| signature_schemes := [Some sig_scheme] |};
     certificate_signature_preferences := None;
     ecc_preferences := Some {| ecc_curves := [Some curve] |};
     rules := 1 |}.

Definition always_grows : nat -> bool := fun _ => true.

(** A result on which capture was enabled and nothing was written. *)
Definition capturing_result : s2n_security_rule_result :=
  {| found_error := false; write_output := true;
     output := {| stuffer_data := ""; growable := true |} |}.

Definition rsa_pss_rsae_sha256 : s2n_signature_scheme := {| iana_value := 2052 |}.

Definition secp256r1 : s2n_ecc_named_curve := {| curve_name := "secp256r1" |}.

(** A policy that lacks its three mandatory lists. *)
Definition without_lists : s2n_security_policy :=
  {| version := None;
     cipher_preferences := None;
     signature_preferences := None;
     certificate_signature_preferences := None;
     ecc_preferences := None;
     rules := 1 |}.

(** Three cipher suites, two of them without forward secrecy. *)
Definition two_violations : s2n_security_policy :=
  {| version := None;
     cipher_preferences :=
       Some {| suites := [Some RSA_SUITE; Some DHE_SUITE; Some RSA_SUITE] |};
     signature_preferences :=
       Some {| signature_schemes := [Some rsa_pss_rsae_sha256] |};
     certificate_signature_preferences := None;
     ecc_preferences := Some {| ecc_curves := [Some secp256r1] |};
     rules := 1 |}.

(** A rule that accepts everything, and a table of four rules: what the
    registry looks like once it is extended. *)
Definition accept_all (name : string) : s2n_security_rule :=
  {| rule_name := name;
     validate_cipher_suite := fun _ _ => S2N_RESULT_OK true;
     validate_sig_scheme := s2n_security_rule_all_sig_schemes;
     validate_cert_sig_scheme := s2n_security_rule_all_sig_schemes;
     validate_curve := s2n_security_rule_all_curves |}.

Definition four_rules : list s2n_security_rule :=
  [perfect_forward_secrecy; accept_all "rule1"; accept_all "rule2"; accept_all "rule3"].

(** The line as the end-to-end example of the specification prints it. *)
Definition example_line_of_the_spec : string :=
  "Perfect Forward Secrecy: policy test_all_ciphers: cipher suite RSA_SUITE (#2)".

(** A computation never leaves the C semantics. *)
Definition defined {A} (m : M A) : Prop :=
  forall r, fst (m r) <> Undefined.

(** ** Predicates on computations, for the flag [found_error] *)

(** A computation never clears the flag. *)
Definition keeps_found_error {A} (m : M A) : Prop :=
  forall r, found_error r = true -> found_error (snd (m r)) = true.

(** Two runs end with the same flag, and with the same outcome unless the
    flag is set. *)
Definition flag_agree {A} (x y : outcome A * s2n_security_rule_result) : Prop :=
  found_error (snd x) = found_error (snd y)
  /\ (fst x = fst y \/ found_error (snd x) = true).

(** The flag after a computation depends on the flag before it only, not on
    the capture switch or on the buffer. *)
Definition capture_oblivious {A} (m : M A) : Prop :=
  forall r1 r2, found_error r1 = found_error r2 -> flag_agree (m r1) (m r2).

Definition flag_safe {A} (m : M A) : Prop :=
  keeps_found_error m /\ capture_oblivious m.

(** The [S2N_RESULT] of a computation does not depend on the capture switch
    or on the buffer, as long as the buffer can be written. *)
Definition outcome_oblivious {A} (m : M A) : Prop :=
  forall r1 r2, writable r1 -> writable r2 ->
    fst (m r1) = fst (m r2) /\ writable (snd (m r1)) /\ writable (snd (m r2)).

(** ** Further predicates and examples *)

(** A buffer after some writes: it kept its growth flag and got a suffix. *)
Definition stuffer_extends (st st' : s2n_stuffer) : Prop :=
  growable st' = growable st
  /\ exists suffix, stuffer_data st' = (stuffer_data st ++ suffix)%string.

(** A result after some calls of the validator: the capture switch is the
    one it was, the buffer got a suffix, and without capture the buffer is
    the one it was. *)
Definition extends (r r' : s2n_security_rule_result) : Prop :=
  write_output r' = write_output r
  /\ stuffer_extends (output r) (output r')
  /\ (write_output r = false -> output r' = output r).

Definition append_only {A} (m : M A) : Prop :=
  forall r, extends r (snd (m r)).

(** Two computations do the same on every result that does not capture, and
    leave capture off. *)
Definition silent_agree {A} (m1 m2 : M A) : Prop :=
  forall r, write_output r = false ->
    m1 r = m2 r /\ write_output (snd (m1 r)) = false.

(** The error that stops a loop at an entry, if the entry stops it: a null
    entry, or an entry on which the validator fails. *)
Definition entry_error {A} (validate : option A -> bool -> s2n_result bool)
    (x : option A) : option s2n_error :=
  match x with
  | None => Some S2N_ERR_NULL
  | Some _ =>
      match validate x false with
      | S2N_RESULT_OK _ => None
      | S2N_RESULT_ERROR e => Some e
      end
  end.

(** A cipher suite whose key exchange is not ephemeral. *)
Definition non_ephemeral (x : option s2n_cipher_suite) : bool :=
  match x with
  | Some cs =>
      match key_exchange_alg cs with
      | Some kex => negb (is_ephemeral kex)
      | None => false
      end
  | None => false
  end.

Definition never_grows : nat -> bool := fun _ => false.

(** A cipher suite without a key-exchange descriptor. *)
Definition NO_KEX_SUITE : s2n_cipher_suite :=
  {| cipher_suite_name := "NO_KEX_SUITE"; key_exchange_alg := None |}.

(** [two_violations] with other cipher suites. *)
Definition with_suites (l : list (option s2n_cipher_suite)) : s2n_security_policy :=
  {| version := None;
     cipher_preferences := Some {| suites := l |};
     signature_preferences := Some {| signature_schemes := [Some rsa_pss_rsae_sha256] |};
     certificate_signature_preferences := None;
     ecc_preferences := Some {| ecc_curves := [Some secp256r1] |};
     rules := 1 |}.

(** Policies that lack one list, or hold a null curve. *)
Definition no_signature_list : s2n_security_policy :=
  {| version := None;
     cipher_preferences := Some {| suites := [Some RSA_SUITE] |};
     signature_preferences := None;
     certificate_signature_preferences := None;
     ecc_preferences := None;
     rules := 1 |}.

Definition no_curve_list : s2n_security_policy :=
  {| version := None;
     cipher_preferences := Some {| suites := [Some RSA_SUITE] |};
     signature_preferences := Some {| signature_schemes := [Some rsa_pss_rsae_sha256] |};
     certificate_signature_preferences := None;
     ecc_preferences := None;
     rules := 1 |}.

Definition null_curve : s2n_security_policy :=
  {| version := None;
     cipher_preferences := Some {| suites := [Some RSA_SUITE] |};
     signature_preferences := Some {| signature_schemes := [Some rsa_pss_rsae_sha256] |};
     certificate_signature_preferences := None;
     ecc_preferences := Some {| ecc_curves := [Some secp256r1; None; Some secp256r1] |};
     rules := 1 |}.

(** * Properties *)

Create HintDb s2n_flag.

(** A property of computations that [bind], [lift], [for_each] and [ret]
    keep holds of the validation through a pointer past the table, once it
    holds of the body of its loops. *)
Ltac past_the_table bind_tac lift_tac each_tac ret_tac :=
  unfold validate_policy_past_the_table;
  bind_tac; [ lift_tac | intros ? ];
  bind_tac; [ lift_tac | intros ? ];
  bind_tac; [ each_tac | intros _ ];
  bind_tac; [ lift_tac | intros ? ];
  bind_tac; [ each_tac | intros _ ];
  bind_tac;
  [ match goal with
    | |- context [certificate_signature_preferences ?p] =>
        destruct (certificate_signature_preferences p); [ each_tac | ret_tac ]
    end
  | intros _ ];
  bind_tac; [ lift_tac | intros ? ];
  bind_tac; [ each_tac | intros _; ret_tac ].

Section Facts.

Variable s2n_realloc_ok : nat -> bool.
Variable rules_count_max : nat.
Variable rule_table : list s2n_security_rule.

(** ** The monad *)

Lemma bind_returns_ok {A B} (m : M A) (k : A -> M B) r a r' :
  m r = (Returns (S2N_RESULT_OK a), r') -> bind m k r = k a r'.
Proof. intros H. unfold bind. now rewrite H. Qed.

Lemma bind_returns_error {A B} (m : M A) (k : A -> M B) r e r' :
  m r = (Returns (S2N_RESULT_ERROR e), r') ->
  bind m k r = (Returns (S2N_RESULT_ERROR e), r').
Proof. intros H. unfold bind. now rewrite H. Qed.

Lemma bind_lift_ok {A B} (a : A) (k : A -> M B) r :
  bind (lift (S2N_RESULT_OK a)) k r = k a r.
Proof. reflexivity. Qed.

Lemma bind_lift_error {A B} e (k : A -> M B) r :
  bind (lift (S2N_RESULT_ERROR e)) k r = (Returns (S2N_RESULT_ERROR e), r).
Proof. reflexivity. Qed.

(** ** The flag is kept, and does not depend on capture *)

Lemma flag_safe_ret {A} (a : A) : flag_safe (ret a).
Proof.
  split; intros r; [ intros H; exact H | intros r2 H; split; [ exact H | now left ] ].
Qed.

Lemma flag_safe_lift {A} (x : s2n_result A) : flag_safe (lift x).
Proof.
  split; intros r; [ intros H; exact H | intros r2 H; split; [ exact H | now left ] ].
Qed.

Lemma flag_safe_undefined {A} : flag_safe (@undefined A).
Proof.
  split; intros r; [ intros H; exact H | intros r2 H; split; [ exact H | now left ] ].
Qed.

Lemma flag_safe_bind {A B} (m : M A) (k : A -> M B) :
  flag_safe m -> (forall a, flag_safe (k a)) -> flag_safe (bind m k).
Proof.
  intros [Km Om] Hk. split.
  - intros r Hr. unfold bind. specialize (Km r Hr).
    destruct (m r) as [[[a | e] | ] r']; simpl in *; trivial.
    now apply (proj1 (Hk a)).
  - intros r1 r2 Hr. unfold bind. specialize (Om r1 r2 Hr).
    destruct (m r1) as [o1 s1] eqn:E1. destruct (m r2) as [o2 s2] eqn:E2.
    destruct Om as [Hf [Ho | Ht]]; simpl in *.
    + subst o2. destruct o1 as [[a | e] | ]; simpl.
      * now apply (proj2 (Hk a)).
      * split; [ exact Hf | now left ].
      * split; [ exact Hf | now left ].
    + assert (Ht2 : found_error s2 = true) by congruence.
      assert (F1 : found_error
                     (snd (match o1 with
                           | Returns (S2N_RESULT_OK a) => k a s1
                           | Returns (S2N_RESULT_ERROR e) => (Returns (S2N_RESULT_ERROR e), s1)
                           | Undefined => (Undefined, s1)
                           end)) = true).
      { destruct o1 as [[a | e] | ]; simpl; trivial. now apply (proj1 (Hk a)). }
      assert (F2 : found_error
                     (snd (match o2 with
                           | Returns (S2N_RESULT_OK a) => k a s2
                           | Returns (S2N_RESULT_ERROR e) => (Returns (S2N_RESULT_ERROR e), s2)
                           | Undefined => (Undefined, s2)
                           end)) = true).
      { destruct o2 as [[a | e] | ]; simpl; trivial. now apply (proj1 (Hk a)). }
      split; [ congruence | now right ].
Qed.

Lemma flag_safe_process condition format vargs :
  flag_safe (s2n_security_rule_result_process s2n_realloc_ok condition format vargs).
Proof.
  unfold s2n_security_rule_result_process.
  destruct condition; [ apply flag_safe_ret | ].
  assert (K : forall r,
             found_error
               (snd ((modify_result (set_found_error true) ;;
                      result <- get_result ;;
                      if negb (write_output result) then ret tt
                      else on_output (s2n_stuffer_vprintf s2n_realloc_ok format vargs) ;;
                           on_output (s2n_stuffer_write_char s2n_realloc_ok "010") ;;
                           ret tt) r)) = true).
  { intros r. unfold bind, modify_result, get_result, on_output, ret. simpl.
    destruct (write_output r); simpl; trivial.
    destruct (s2n_stuffer_vprintf _ _ _ _); simpl; trivial.
    destruct (s2n_stuffer_write_char _ _ _); simpl; trivial. }
  split.
  - intros r _. apply K.
  - intros r1 r2 _. split; [ now rewrite !K | right; apply K ].
Qed.

Lemma flag_safe_for_each {A} (body : nat -> A -> M unit) :
  (forall i x, flag_safe (body i x)) ->
  forall l i, flag_safe (for_each body i l).
Proof.
  intros Hb. induction l as [| x l IH]; intros i; simpl.
  - apply flag_safe_ret.
  - apply flag_safe_bind; [ apply Hb | intros _; apply IH ].
Qed.

#[local] Hint Resolve flag_safe_ret flag_safe_lift flag_safe_undefined
  flag_safe_bind flag_safe_process flag_safe_for_each : s2n_flag.

Lemma flag_safe_validate_policy rule policy :
  flag_safe (s2n_security_rule_validate_policy s2n_realloc_ok rule policy).
Proof.
  unfold s2n_security_rule_validate_policy.
  apply flag_safe_bind; [ auto with s2n_flag | intros r ].
  apply flag_safe_bind; [ auto with s2n_flag | intros p ].
  apply flag_safe_bind; [ auto with s2n_flag | intros c ].
  apply flag_safe_bind.
  { apply flag_safe_for_each. intros i x. unfold validate_cipher_suite_at.
    auto 6 with s2n_flag. }
  intros _. apply flag_safe_bind; [ auto with s2n_flag | intros s ].
  apply flag_safe_bind.
  { apply flag_safe_for_each. intros i x. unfold validate_sig_scheme_at.
    auto 6 with s2n_flag. }
  intros _. apply flag_safe_bind.
  { destruct (certificate_signature_preferences p); [ | auto with s2n_flag ].
    apply flag_safe_for_each. intros i x. unfold validate_cert_sig_scheme_at.
    auto 6 with s2n_flag. }
  intros _. apply flag_safe_bind; [ auto with s2n_flag | intros e ].
  apply flag_safe_bind; [ | auto with s2n_flag ].
  apply flag_safe_for_each. intros i x. unfold validate_curve_at.
  auto 6 with s2n_flag.
Qed.

Lemma flag_safe_validate_policy_past_the_table policy :
  flag_safe (validate_policy_past_the_table policy).
Proof using.
  past_the_table ltac:(apply flag_safe_bind) ltac:(apply flag_safe_lift)
    ltac:(apply flag_safe_for_each; intros; unfold validate_entry_past_the_table;
          apply flag_safe_bind; [ apply flag_safe_lift
                                | intros; apply flag_safe_undefined ])
    ltac:(apply flag_safe_ret).
Qed.

Lemma flag_safe_validate_security_rules policy :
  flag_safe (s2n_security_policy_validate_security_rules
               s2n_realloc_ok rules_count_max rule_table policy).
Proof.
  unfold s2n_security_policy_validate_security_rules.
  apply flag_safe_bind; [ auto with s2n_flag | intros sel ].
  apply flag_safe_bind; [ | auto with s2n_flag ].
  apply flag_safe_for_each. intros i ptr. unfold validate_selected_rule.
  destruct (nth_error rule_table ptr);
    [ apply flag_safe_validate_policy
    | apply flag_safe_validate_policy_past_the_table ].
Qed.

(** ** Strings and formats *)

Lemma append_assoc (a b c : string) : ((a ++ b) ++ c = a ++ (b ++ c))%string.
Proof. induction a as [| x a IH]; simpl; [ reflexivity | now rewrite IH ]. Qed.

Lemma append_nil_r (a : string) : (a ++ "" = a)%string.
Proof. induction a as [| x a IH]; simpl; [ reflexivity | now rewrite IH ]. Qed.

Lemma text_of_lines_app (l1 l2 : list string) :
  text_of_lines (l1 ++ l2) = (text_of_lines l1 ++ text_of_lines l2)%string.
Proof.
  induction l1 as [| x l1 IH]; simpl; [ reflexivity | ].
  now rewrite IH, !append_assoc.
Qed.

Lemma vsnprintf_format_name (a b c d : string) (k : nat) :
  vsnprintf error_msg_format_name
    [VaString a; VaString b; VaString c; VaString d; VaInt (N.of_nat k)]
  = Some (diagnostic_line a b c d k).
Proof. reflexivity. Qed.

Lemma vsnprintf_format_iana (a b c : string) (v : N) (k : nat) :
  vsnprintf error_msg_format_iana
    [VaString a; VaString b; VaString c; VaInt v; VaInt (N.of_nat k)]
  = Some (diagnostic_line a b c (render_x v) k).
Proof. reflexivity. Qed.

(** ** What a successful validation leaves in the accumulator *)

Section NoGrowthFailure.

Hypothesis realloc_total : forall n, s2n_realloc_ok n = true.

Lemma record_lines_writable lines r : writable r -> writable (record_lines lines r).
Proof.
  unfold writable. destruct lines as [| l lines]; simpl; trivial.
  intros H W. rewrite W in *. simpl. auto.
Qed.

Lemma record_lines_app l1 l2 r :
  record_lines l2 (record_lines l1 r) = record_lines (l1 ++ l2) r.
Proof.
  destruct l1 as [| x l1]; [ reflexivity | ].
  destruct l2 as [| y l2]; [ now rewrite app_nil_r | ].
  simpl. destruct (write_output r); simpl; [ | reflexivity ].
  do 2 f_equal.
  change (y :: l2) with ([y] ++ l2).
  rewrite !text_of_lines_app. simpl.
  now rewrite !append_assoc, ?append_nil_r.
Qed.

Lemma process_records condition format vargs line r :
  vsnprintf format vargs = Some line -> writable r ->
  s2n_security_rule_result_process s2n_realloc_ok condition format vargs r
  = (Returns (S2N_RESULT_OK tt), record_lines (if condition then [] else [line]) r).
Proof.
  intros Hf W. unfold s2n_security_rule_result_process.
  destruct condition; [ reflexivity | ].
  destruct r as [fe wo [data g]]. unfold writable in W. simpl in W.
  unfold bind, modify_result, get_result, on_output, ret, record_lines,
    s2n_stuffer_vprintf, s2n_stuffer_write_char, s2n_stuffer_write; simpl.
  destruct wo; simpl; [ | reflexivity ].
  rewrite (W eq_refl), Hf. simpl. rewrite !realloc_total. simpl.
  rewrite ?realloc_total. simpl.
  unfold set_output, set_found_error; simpl. now rewrite append_assoc.
Qed.

(** One loop: the violations of a category, in the order of its entries. *)
Lemma for_each_records {A} (body : nat -> option A -> M unit)
    (validate : option A -> bool -> s2n_result bool) (line : nat -> A -> string) :
  (forall i a b r, validate (Some a) false = S2N_RESULT_OK b -> writable r ->
     body i (Some a) r
     = (Returns (S2N_RESULT_OK tt),
        record_lines (if b then [] else [line (S i) a]) r)) ->
  forall l i r, evaluable validate l = true -> writable r ->
    for_each body i l r
    = (Returns (S2N_RESULT_OK tt),
       record_lines (map (fun ia => line (fst ia) (snd ia))
                         (failed_from validate (S i) l)) r).
Proof.
  intros Hb. induction l as [| x l IH]; intros i r He W; [ reflexivity | ].
  simpl in He. apply andb_true_iff in He. destruct He as [Hx He].
  destruct x as [a |]; [ | discriminate ].
  destruct (validate (Some a) false) as [b | e] eqn:Ev; [ | discriminate ].
  simpl for_each. rewrite (bind_returns_ok _ _ _ _ _ (Hb i a b r Ev W)).
  rewrite IH; [ | exact He | now apply record_lines_writable ].
  rewrite record_lines_app. unfold failed_from. simpl. rewrite Ev.
  destruct b; simpl; reflexivity.
Qed.

Ltac loop_body validate_eq :=
  simpl; rewrite bind_lift_ok, validate_eq, bind_lift_ok;
  apply process_records; [ rewrite Nat.add_1_r | assumption ].

Lemma validate_cipher_suite_at_records rule pn i a b r :
  validate_cipher_suite rule (Some a) false = S2N_RESULT_OK b -> writable r ->
  validate_cipher_suite_at s2n_realloc_ok rule pn i (Some a) r
  = (Returns (S2N_RESULT_OK tt),
     record_lines (if b then [] else
       [diagnostic_line (rule_name rule) pn "cipher suite" (cipher_suite_name a) (S i)]) r).
Proof.
  intros Ev W. unfold validate_cipher_suite_at. loop_body Ev.
  apply vsnprintf_format_name.
Qed.

Lemma validate_sig_scheme_at_records rule pn i a b r :
  validate_sig_scheme rule (Some a) false = S2N_RESULT_OK b -> writable r ->
  validate_sig_scheme_at s2n_realloc_ok rule pn i (Some a) r
  = (Returns (S2N_RESULT_OK tt),
     record_lines (if b then [] else
       [diagnostic_line (rule_name rule) pn "signature scheme"
          (render_x (iana_value a)) (S i)]) r).
Proof.
  intros Ev W. unfold validate_sig_scheme_at. loop_body Ev.
  apply vsnprintf_format_iana.
Qed.

Lemma validate_cert_sig_scheme_at_records rule pn i a b r :
  validate_cert_sig_scheme rule (Some a) false = S2N_RESULT_OK b -> writable r ->
  validate_cert_sig_scheme_at s2n_realloc_ok rule pn i (Some a) r
  = (Returns (S2N_RESULT_OK tt),
     record_lines (if b then [] else
       [diagnostic_line (rule_name rule) pn "certificate signature scheme"
          (render_x (iana_value a)) (S i)]) r).
Proof.
  intros Ev W. unfold validate_cert_sig_scheme_at. loop_body Ev.
  apply vsnprintf_format_iana.
Qed.

Lemma validate_curve_at_records rule pn i a b r :
  validate_curve rule (Some a) false = S2N_RESULT_OK b -> writable r ->
  validate_curve_at s2n_realloc_ok rule pn i (Some a) r
  = (Returns (S2N_RESULT_OK tt),
     record_lines (if b then [] else
       [diagnostic_line (rule_name rule) pn "curve" (curve_name a) (S i)]) r).
Proof.
  intros Ev W. unfold validate_curve_at. loop_body Ev.
  apply vsnprintf_format_name.
Qed.

(** A rule on a policy it can evaluate: the call succeeds and records every
    violation. *)
Lemma validate_policy_records rule p r :
  policy_evaluable rule p = true -> writable r ->
  s2n_security_rule_validate_policy s2n_realloc_ok (Some rule) (Some p) r
  = (Returns (S2N_RESULT_OK tt), record_lines (violation_lines rule p) r).
Proof.
  unfold policy_evaluable. rewrite !andb_true_iff.
  intros [[[[[[Hc Hs] He] E1] E2] E3] E4] W.
  set (r1 := record_lines (cipher_suite_lines rule p) r).
  set (r2 := record_lines (sig_scheme_lines rule p) r1).
  set (r3 := record_lines (cert_sig_scheme_lines rule p) r2).
  set (r4 := record_lines (curve_lines rule p) r3).
  assert (W1 : writable r1) by now apply record_lines_writable.
  assert (W2 : writable r2) by now apply record_lines_writable.
  assert (W3 : writable r3) by now apply record_lines_writable.
  destruct (cipher_preferences p) as [c |] eqn:Dc; [ | discriminate ].
  destruct (signature_preferences p) as [sp |] eqn:Ds; [ | discriminate ].
  destruct (ecc_preferences p) as [ep |] eqn:De; [ | discriminate ].
  assert (L1 : for_each (validate_cipher_suite_at s2n_realloc_ok rule (policy_name_of p))
                 0 (suites c) r = (Returns (S2N_RESULT_OK tt), r1)).
  { unfold r1, cipher_suite_lines, failed, cipher_suite_entries in *. rewrite Dc in *.
    apply (for_each_records _ (validate_cipher_suite rule)
             (fun k a => diagnostic_line (rule_name rule) (policy_name_of p)
                           "cipher suite" (cipher_suite_name a) k));
      [ intros; now apply validate_cipher_suite_at_records | exact E1 | exact W ]. }
  assert (L2 : for_each (validate_sig_scheme_at s2n_realloc_ok rule (policy_name_of p))
                 0 (signature_schemes sp) r1 = (Returns (S2N_RESULT_OK tt), r2)).
  { unfold r2, sig_scheme_lines, failed, sig_scheme_entries in *. rewrite Ds in *.
    apply (for_each_records _ (validate_sig_scheme rule)
             (fun k a => diagnostic_line (rule_name rule) (policy_name_of p)
                           "signature scheme" (render_x (iana_value a)) k));
      [ intros; now apply validate_sig_scheme_at_records | exact E2 | exact W1 ]. }
  assert (L3 : match certificate_signature_preferences p with
               | Some cert_sig_prefs =>
                   for_each (validate_cert_sig_scheme_at s2n_realloc_ok rule
                               (policy_name_of p)) 0 (signature_schemes cert_sig_prefs)
               | None => ret tt
               end r2 = (Returns (S2N_RESULT_OK tt), r3)).
  { unfold r3, cert_sig_scheme_lines, failed, cert_sig_scheme_entries in *.
    destruct (certificate_signature_preferences p) as [cp |]; [ | reflexivity ].
    apply (for_each_records _ (validate_cert_sig_scheme rule)
             (fun k a => diagnostic_line (rule_name rule) (policy_name_of p)
                           "certificate signature scheme"
                           (render_x (iana_value a)) k));
      [ intros; now apply validate_cert_sig_scheme_at_records | exact E3 | exact W2 ]. }
  assert (L4 : for_each (validate_curve_at s2n_realloc_ok rule (policy_name_of p))
                 0 (ecc_curves ep) r3 = (Returns (S2N_RESULT_OK tt), r4)).
  { unfold r4, curve_lines, failed, curve_entries in *. rewrite De in *.
    apply (for_each_records _ (validate_curve rule)
             (fun k a => diagnostic_line (rule_name rule) (policy_name_of p)
                           "curve" (curve_name a) k));
      [ intros; now apply validate_curve_at_records | exact E4 | exact W3 ]. }
  unfold s2n_security_rule_validate_policy.
  simpl RESULT_ENSURE_REF. rewrite !bind_lift_ok, Dc.
  simpl RESULT_ENSURE_REF. rewrite bind_lift_ok.
  rewrite (bind_returns_ok _ _ _ _ _ L1), Ds.
  simpl RESULT_ENSURE_REF. rewrite bind_lift_ok.
  rewrite (bind_returns_ok _ _ _ _ _ L2).
  rewrite (bind_returns_ok _ _ _ _ _ L3), De.
  simpl RESULT_ENSURE_REF. rewrite bind_lift_ok.
  rewrite (bind_returns_ok _ _ _ _ _ L4).
  unfold ret, r4, r3, r2, r1, violation_lines.
  now rewrite !record_lines_app, <- ?app_assoc.
Qed.

(** The rules behind the selected offsets, one after the other. *)
Lemma for_each_selected_records p sel :
  Forall (fun ptr => ptr < List.length rule_table) sel ->
  forallb (fun rule => policy_evaluable rule p) (rules_at rule_table sel) = true ->
  forall i r, writable r ->
    for_each (validate_selected_rule s2n_realloc_ok rule_table (Some p)) i sel r
    = (Returns (S2N_RESULT_OK tt),
       record_lines (flat_map (fun rule => violation_lines rule p)
                              (rules_at rule_table sel)) r).
Proof.
  induction sel as [| ptr sel IH]; intros Hin Hev i r W; [ reflexivity | ].
  inversion Hin as [| ? ? Hptr Hrest]; subst.
  apply nth_error_Some in Hptr.
  simpl in *. unfold validate_selected_rule at 1.
  destruct (nth_error rule_table ptr) as [rule |]; [ | congruence ].
  simpl in Hev. apply andb_true_iff in Hev. destruct Hev as [H1 H2].
  erewrite bind_returns_ok; [ | now apply validate_policy_records ].
  rewrite IH; auto using record_lines_writable.
  now rewrite record_lines_app.
Qed.

Lemma validate_security_rules_records p sel r :
  s2n_security_policy_get_security_rules rules_count_max rule_table (Some p)
    rules_count_max = S2N_RESULT_OK sel ->
  Forall (fun ptr => ptr < List.length rule_table) sel ->
  forallb (fun rule => policy_evaluable rule p) (rules_at rule_table sel) = true ->
  writable r ->
  s2n_security_policy_validate_security_rules s2n_realloc_ok rules_count_max
    rule_table (Some p) r
  = (Returns (S2N_RESULT_OK tt),
     record_lines (flat_map (fun rule => violation_lines rule p)
                            (rules_at rule_table sel)) r).
Proof.
  intros Hsel Hin Hev W.
  unfold s2n_security_policy_validate_security_rules.
  rewrite Hsel, bind_lift_ok.
  erewrite bind_returns_ok; [ | now apply for_each_selected_records ].
  reflexivity.
Qed.

(** ** Capture does not change what the validation returns *)

Lemma outcome_oblivious_lift {A} (x : s2n_result A) : outcome_oblivious (lift x).
Proof. intros r1 r2 W1 W2. now repeat split. Qed.

Lemma outcome_oblivious_ret {A} (a : A) : outcome_oblivious (ret a).
Proof. intros r1 r2 W1 W2. now repeat split. Qed.

Lemma outcome_oblivious_undefined {A} : outcome_oblivious (@undefined A).
Proof. intros r1 r2 W1 W2. now repeat split. Qed.

Lemma outcome_oblivious_bind {A B} (m : M A) (k : A -> M B) :
  outcome_oblivious m -> (forall a, outcome_oblivious (k a)) ->
  outcome_oblivious (bind m k).
Proof.
  intros Hm Hk r1 r2 W1 W2. unfold bind.
  destruct (Hm r1 r2 W1 W2) as (E & V1 & V2).
  destruct (m r1) as [o1 s1]. destruct (m r2) as [o2 s2]. simpl in *. subst o2.
  destruct o1 as [[a | e] | ]; simpl; [ now apply Hk | now repeat split .. ].
Qed.

Lemma outcome_oblivious_process condition format vargs line :
  vsnprintf format vargs = Some line ->
  outcome_oblivious
    (s2n_security_rule_result_process s2n_realloc_ok condition format vargs).
Proof.
  intros Hf r1 r2 W1 W2.
  rewrite (process_records condition format vargs line r1 Hf W1).
  rewrite (process_records condition format vargs line r2 Hf W2).
  simpl. repeat split; now apply record_lines_writable.
Qed.

Lemma outcome_oblivious_for_each {A} (body : nat -> A -> M unit) :
  (forall i x, outcome_oblivious (body i x)) ->
  forall l i, outcome_oblivious (for_each body i l).
Proof.
  intros Hb. induction l as [| x l IH]; intros i; simpl.
  - apply outcome_oblivious_ret.
  - apply outcome_oblivious_bind; [ apply Hb | intros _; apply IH ].
Qed.

Ltac oblivious_body :=
  apply outcome_oblivious_for_each; intros i x;
  apply outcome_oblivious_bind; [ apply outcome_oblivious_lift | intros a ];
  apply outcome_oblivious_bind; [ apply outcome_oblivious_lift | intros b ];
  eapply outcome_oblivious_process; rewrite Nat.add_1_r;
  first [ apply vsnprintf_format_name | apply vsnprintf_format_iana ].

Lemma outcome_oblivious_validate_policy rule policy :
  outcome_oblivious (s2n_security_rule_validate_policy s2n_realloc_ok rule policy).
Proof.
  unfold s2n_security_rule_validate_policy.
  apply outcome_oblivious_bind; [ apply outcome_oblivious_lift | intros ru ].
  apply outcome_oblivious_bind; [ apply outcome_oblivious_lift | intros p ].
  apply outcome_oblivious_bind; [ apply outcome_oblivious_lift | intros c ].
  apply outcome_oblivious_bind;
    [ unfold validate_cipher_suite_at; oblivious_body | intros _ ].
  apply outcome_oblivious_bind; [ apply outcome_oblivious_lift | intros sp ].
  apply outcome_oblivious_bind;
    [ unfold validate_sig_scheme_at; oblivious_body | intros _ ].
  apply outcome_oblivious_bind.
  { destruct (certificate_signature_preferences p);
      [ unfold validate_cert_sig_scheme_at; oblivious_body
      | apply outcome_oblivious_ret ]. }
  intros _.
  apply outcome_oblivious_bind; [ apply outcome_oblivious_lift | intros ep ].
  apply outcome_oblivious_bind;
    [ unfold validate_curve_at; oblivious_body | intros _; apply outcome_oblivious_ret ].
Qed.

Lemma outcome_oblivious_validate_policy_past_the_table policy :
  outcome_oblivious (validate_policy_past_the_table policy).
Proof using.
  past_the_table ltac:(apply outcome_oblivious_bind)
    ltac:(apply outcome_oblivious_lift)
    ltac:(apply outcome_oblivious_for_each; intros;
          unfold validate_entry_past_the_table;
          apply outcome_oblivious_bind;
          [ apply outcome_oblivious_lift
          | intros; apply outcome_oblivious_undefined ])
    ltac:(apply outcome_oblivious_ret).
Qed.

Lemma outcome_oblivious_validate_security_rules policy :
  outcome_oblivious
    (s2n_security_policy_validate_security_rules s2n_realloc_ok rules_count_max
       rule_table policy).
Proof.
  unfold s2n_security_policy_validate_security_rules.
  apply outcome_oblivious_bind; [ apply outcome_oblivious_lift | intros sel ].
  apply outcome_oblivious_bind; [ | intros _; apply outcome_oblivious_ret ].
  apply outcome_oblivious_for_each. intros i ptr. unfold validate_selected_rule.
  destruct (nth_error rule_table ptr);
    [ apply outcome_oblivious_validate_policy
    | apply outcome_oblivious_validate_policy_past_the_table ].
Qed.

(** When the buffer can always grow, enabling capture changes neither what
    the validation returns nor the flag it leaves. *)
Lemma capture_keeps_the_outcome policy r :
  writable r ->
  fst (s2n_security_policy_validate_security_rules s2n_realloc_ok rules_count_max
         rule_table policy
         (snd (s2n_security_rule_result_init_output s2n_realloc_ok r)))
  = fst (s2n_security_policy_validate_security_rules s2n_realloc_ok rules_count_max
           rule_table policy r).
Proof.
  intros W. apply outcome_oblivious_validate_security_rules; [ | exact W ].
  unfold s2n_security_rule_result_init_output, bind, on_output, modify_result, ret,
    s2n_stuffer_growable_alloc.
  rewrite realloc_total. intros _. reflexivity.
Qed.

(** The position of an entry is printed in decimal. *)
Lemma render_i_decimal (k : N) :
  (k < 2 ^ 31)%N ->
  render_i k = DecimalString.NilZero.string_of_uint (N.to_uint k).
Proof using.
  intros H. unfold render_i.
  assert (E : (k mod 2 ^ 32 = k)%N).
  { apply N.mod_small. eapply N.lt_trans; [ exact H | reflexivity ]. }
  cbv zeta. rewrite E.
  apply N.ltb_lt in H. now rewrite H.
Qed.

End NoGrowthFailure.

(** ** The selector *)

Lemma is_set_testbit (flags : N) :
  negb (flags mod 2 =? 0)%N = N.testbit flags 0.
Proof.
  rewrite N.bit0_eqb.
  assert (H : (flags mod 2 < 2)%N) by (apply N.mod_lt; discriminate).
  set (m := (flags mod 2)%N) in *. clearbody m.
  destruct (N.eqb_spec m 0) as [E | E];
    destruct (N.eqb_spec m 1) as [E1 | E1]; simpl; trivial; lia.
Qed.

Lemma set_bits_below_S n flags :
  set_bits_below (S n) flags
  = (if N.testbit flags 0 then [0] else [])
      ++ map S (set_bits_below n (N.shiftr flags 1)).
Proof.
  unfold set_bits_below. simpl seq. rewrite <- seq_shift. simpl filter.
  rewrite filter_map_swap.
  assert (E : filter (fun a => N.testbit flags (N.of_nat (S a))) (seq 0 n)
              = filter (fun rule => N.testbit (N.shiftr flags 1) (N.of_nat rule))
                       (seq 0 n)).
  { apply filter_ext. intros k.
    now rewrite N.shiftr_spec', Nat2N.inj_succ, N.add_1_r. }
  rewrite E. now destruct (N.testbit flags 0).
Qed.

Lemma set_bits_below_0 n : set_bits_below n 0 = [].
Proof.
  unfold set_bits_below. induction (seq 0 n) as [| k l IH]; simpl; trivial.
Qed.

Lemma set_bits_below_In n flags k :
  In k (set_bits_below n flags) <-> k < n /\ N.testbit flags (N.of_nat k) = true.
Proof using.
  unfold set_bits_below. rewrite filter_In, in_seq.
  split; intros [H1 H2]; (split; [ lia | exact H2 ]) || (split; [ lia | exact H1 ]).
Qed.

(** Bits at or above [count] play no part. *)
Lemma set_bits_below_mod n flags :
  set_bits_below n (flags mod 2 ^ N.of_nat n) = set_bits_below n flags.
Proof.
  unfold set_bits_below. apply filter_ext_in. intros k Hk.
  apply in_seq in Hk. apply N.mod_pow2_bits_low. lia.
Qed.

Lemma StronglySorted_seq a n : StronglySorted lt (seq a n).
Proof.
  revert a. induction n as [| n IH]; intros a; simpl; constructor.
  - apply IH.
  - apply Forall_forall. intros k Hk. apply in_seq in Hk. lia.
Qed.

Lemma StronglySorted_filter {A} (R : A -> A -> Prop) f l :
  StronglySorted R l -> StronglySorted R (filter f l).
Proof.
  induction 1 as [| x l Hs IH Hx]; simpl; [ constructor | ].
  destruct (f x); [ | exact IH ].
  constructor; [ exact IH | ].
  apply Forall_forall. intros y Hy. apply filter_In in Hy.
  rewrite Forall_forall in Hx. now apply Hx.
Qed.

Lemma set_bits_below_ascending n flags : StronglySorted lt (set_bits_below n flags).
Proof. apply StronglySorted_filter, StronglySorted_seq. Qed.

(** The loop visits the set bits in ascending order. *)
Lemma get_security_rules_loop_select n :
  forall rule flags max_rules_count acc,
    get_security_rules_loop rule_table n rule flags max_rules_count acc
    = select_offsets (List.length rule_table) max_rules_count
        (map (Nat.add rule) (set_bits_below n flags)) acc.
Proof.
  induction n as [| n IH]; intros rule flags mx acc; [ reflexivity | ].
  simpl get_security_rules_loop. rewrite is_set_testbit, set_bits_below_S, !IH.
  rewrite map_app, map_map.
  assert (E : map (fun x => rule + S x) (set_bits_below n (N.shiftr flags 1))
              = map (Nat.add (S rule)) (set_bits_below n (N.shiftr flags 1))).
  { apply map_ext. intros k. lia. }
  rewrite E. destruct (N.testbit flags 0); simpl; [ | reflexivity ].
  now rewrite Nat.add_0_r.
Qed.

Lemma get_security_rules_select p max_rules_count :
  s2n_security_policy_get_security_rules rules_count_max rule_table (Some p)
    max_rules_count
  = select_offsets (List.length rule_table) max_rules_count
      (set_bits_below rules_count_max (rules p)) [].
Proof.
  unfold s2n_security_policy_get_security_rules.
  rewrite get_security_rules_loop_select. f_equal.
  rewrite <- (map_id (set_bits_below rules_count_max (rules p))) at 2.
  now apply map_ext.
Qed.

Lemma select_offsets_ok_inv len mx ids :
  forall acc l, select_offsets len mx ids acc = S2N_RESULT_OK l -> l = acc ++ ids.
Proof.
  induction ids as [| k ids IH]; intros acc l H; simpl in H.
  - rewrite app_nil_r. congruence.
  - destruct (k <=? len); simpl in H; [ | discriminate ].
    destruct (List.length acc <? mx); simpl in H; [ | discriminate ].
    apply IH in H. now rewrite <- app_assoc in H.
Qed.

Lemma select_offsets_ok len mx ids :
  forall acc, Forall (fun k => k <= len) ids ->
    List.length acc + List.length ids <= mx ->
    select_offsets len mx ids acc = S2N_RESULT_OK (acc ++ ids).
Proof.
  induction ids as [| k ids IH]; intros acc Hin Hlen; simpl.
  - now rewrite app_nil_r.
  - inversion Hin as [| ? ? Hk Hrest]; subst. simpl in Hlen.
    apply Nat.leb_le in Hk. rewrite Hk. simpl.
    assert (Hlt : (List.length acc <? mx) = true) by (apply Nat.ltb_lt; lia).
    rewrite Hlt. simpl. rewrite IH; trivial.
    + now rewrite <- app_assoc.
    + rewrite length_app. simpl. lia.
Qed.

Lemma select_offsets_out_of_range len mx ids :
  forall acc, Exists (fun k => len < k) ids ->
    select_offsets len mx ids acc = S2N_RESULT_ERROR S2N_ERR_SAFETY.
Proof.
  induction ids as [| k ids IH]; intros acc Hex; [ inversion Hex | ].
  simpl. destruct (Nat.leb_spec k len) as [Hk | Hk]; simpl; [ | reflexivity ].
  destruct (List.length acc <? mx); simpl; [ | reflexivity ].
  apply IH. inversion Hex; subst; [ lia | assumption ].
Qed.

Lemma select_offsets_no_room len mx ids :
  forall acc, mx < List.length acc + List.length ids ->
    select_offsets len mx ids acc = S2N_RESULT_ERROR S2N_ERR_SAFETY
    \/ select_offsets len mx ids acc = S2N_RESULT_OK acc /\ ids = [].
Proof.
  induction ids as [| k ids IH]; intros acc Hlen; [ now right | left ].
  simpl. destruct (k <=? len); simpl; [ | reflexivity ].
  destruct (Nat.ltb_spec (List.length acc) mx) as [Hlt | Hge]; simpl;
    [ | reflexivity ].
  destruct (IH (acc ++ [k])) as [E | [_ E]].
  - rewrite length_app. simpl in *. lia.
  - exact E.
  - subst ids. simpl in Hlen. lia.
Qed.

(** ** The accumulator *)

Lemma init_output_found_error r :
  found_error (snd (s2n_security_rule_result_init_output s2n_realloc_ok r))
  = found_error r.
Proof.
  unfold s2n_security_rule_result_init_output, bind, on_output, modify_result, ret.
  destruct (s2n_stuffer_growable_alloc s2n_realloc_ok 0); reflexivity.
Qed.

Lemma result_free_zero r :
  s2n_security_rule_result_free r
  = (Returns (S2N_RESULT_OK tt), s2n_security_rule_result_zero).
Proof. reflexivity. Qed.

(** C1: for every policy and every rule table, the value of [found_error]
    after [s2n_security_policy_validate_security_rules], and after each
    [s2n_security_rule_validate_policy], is the same whether or not capture
    was enabled on the result: two results that start with the same flag end
    with the same flag, whatever their capture switch and buffer, and in
    particular a result and the same result after
    [s2n_security_rule_result_init_output].  No assumption on the allocator
    is needed for the flag. *)
Theorem found_error_independent_of_capture
    (policy : option s2n_security_policy) (rule : option s2n_security_rule) :
  (forall fe wo1 out1 wo2 out2,
      found_error
        (snd (s2n_security_policy_validate_security_rules s2n_realloc_ok
                rules_count_max rule_table policy
                {| found_error := fe; write_output := wo1; output := out1 |}))
      = found_error
          (snd (s2n_security_policy_validate_security_rules s2n_realloc_ok
                  rules_count_max rule_table policy
                  {| found_error := fe; write_output := wo2; output := out2 |}))
      /\ found_error
           (snd (s2n_security_rule_validate_policy s2n_realloc_ok rule policy
                   {| found_error := fe; write_output := wo1; output := out1 |}))
         = found_error
             (snd (s2n_security_rule_validate_policy s2n_realloc_ok rule policy
                     {| found_error := fe; write_output := wo2; output := out2 |})))
  /\ (forall r,
         found_error
           (snd (s2n_security_policy_validate_security_rules s2n_realloc_ok
                   rules_count_max rule_table policy
                   (snd (s2n_security_rule_result_init_output s2n_realloc_ok r))))
         = found_error
             (snd (s2n_security_policy_validate_security_rules s2n_realloc_ok
                     rules_count_max rule_table policy r))
         /\ found_error
              (snd (s2n_security_rule_validate_policy s2n_realloc_ok rule policy
                      (snd (s2n_security_rule_result_init_output s2n_realloc_ok r))))
            = found_error
                (snd (s2n_security_rule_validate_policy s2n_realloc_ok rule policy r))).
Proof.
  split.
  - intros fe wo1 out1 wo2 out2. split.
    + now apply (proj2 (flag_safe_validate_security_rules policy)).
    + now apply (proj2 (flag_safe_validate_policy rule policy)).
  - intros r. split.
    + apply (proj2 (flag_safe_validate_security_rules policy)), init_output_found_error.
    + apply (proj2 (flag_safe_validate_policy rule policy)), init_output_found_error.
Qed.

(** C9: a call of [s2n_security_rule_result_process] with a true condition
    leaves the whole result as it was; a call with a false condition on a
    result whose [write_output] is off sets [found_error] and nothing else:
    the buffer is the one it was, nothing was formatted, written or
    allocated. *)
Theorem process_frame (format : string) (vargs : list printf_arg) :
  (forall r,
      s2n_security_rule_result_process s2n_realloc_ok true format vargs r
      = (Returns (S2N_RESULT_OK tt), r))
  /\ (forall fe out,
         s2n_security_rule_result_process s2n_realloc_ok false format vargs
           {| found_error := fe; write_output := false; output := out |}
         = (Returns (S2N_RESULT_OK tt),
            {| found_error := true; write_output := false; output := out |})).
Proof. split; reflexivity. Qed.

(** C10: [found_error] is monotone.  On a result whose flag is set, every
    call of [s2n_security_rule_result_process],
    [s2n_security_rule_validate_policy] and
    [s2n_security_policy_validate_security_rules], whatever it returns, and
    [s2n_security_rule_result_init_output] too, leaves the flag set; only
    [s2n_security_rule_result_free] clears it. *)
Theorem found_error_monotone (r : s2n_security_rule_result) :
  found_error r = true ->
  (forall condition format vargs,
      found_error
        (snd (s2n_security_rule_result_process s2n_realloc_ok condition format
                vargs r)) = true)
  /\ (forall rule policy,
         found_error
           (snd (s2n_security_rule_validate_policy s2n_realloc_ok rule policy r))
         = true)
  /\ (forall policy,
         found_error
           (snd (s2n_security_policy_validate_security_rules s2n_realloc_ok
                   rules_count_max rule_table policy r)) = true)
  /\ found_error (snd (s2n_security_rule_result_init_output s2n_realloc_ok r)) = true
  /\ found_error (snd (s2n_security_rule_result_free r)) = false.
Proof.
  intros H. repeat split.
  - intros c f v. now apply (proj1 (flag_safe_process c f v)).
  - intros rule policy. now apply (proj1 (flag_safe_validate_policy rule policy)).
  - intros policy. now apply (proj1 (flag_safe_validate_security_rules policy)).
  - now rewrite init_output_found_error.
Qed.

(** ** No call of the validator leaves the C semantics *)

Lemma defined_ret {A} (a : A) : defined (ret a).
Proof. intros r. discriminate. Qed.

Lemma defined_lift {A} (x : s2n_result A) : defined (lift x).
Proof. intros r. discriminate. Qed.

Lemma defined_bind {A B} (m : M A) (k : A -> M B) :
  defined m -> (forall a, defined (k a)) -> defined (bind m k).
Proof.
  intros Hm Hk r. unfold bind. specialize (Hm r).
  destruct (m r) as [[[a | e] | ] r']; simpl in *;
    [ apply Hk | discriminate | congruence ].
Qed.

Lemma defined_process condition format vargs :
  defined (s2n_security_rule_result_process s2n_realloc_ok condition format vargs).
Proof.
  intros r. unfold s2n_security_rule_result_process.
  destruct condition; [ discriminate | ].
  unfold bind, modify_result, get_result, on_output, ret. simpl.
  destruct (write_output r); simpl; [ | discriminate ].
  destruct (s2n_stuffer_vprintf _ _ _ _); simpl; [ | discriminate ].
  destruct (s2n_stuffer_write_char _ _ _); simpl; discriminate.
Qed.

Lemma defined_for_each {A} (body : nat -> A -> M unit) :
  (forall i x, defined (body i x)) -> forall l i, defined (for_each body i l).
Proof.
  intros Hb. induction l as [| x l IH]; intros i; simpl.
  - apply defined_ret.
  - apply defined_bind; [ apply Hb | intros _; apply IH ].
Qed.

#[local] Hint Resolve defined_ret defined_lift defined_bind defined_process
  defined_for_each : s2n_flag.

Lemma defined_cipher_suites rule pn l i :
  defined (for_each (validate_cipher_suite_at s2n_realloc_ok rule pn) i l).
Proof.
  apply defined_for_each. intros. unfold validate_cipher_suite_at.
  auto 6 with s2n_flag.
Qed.

Lemma defined_sig_schemes rule pn l i :
  defined (for_each (validate_sig_scheme_at s2n_realloc_ok rule pn) i l).
Proof.
  apply defined_for_each. intros. unfold validate_sig_scheme_at.
  auto 6 with s2n_flag.
Qed.

Lemma defined_cert_sig_schemes rule pn l i :
  defined (for_each (validate_cert_sig_scheme_at s2n_realloc_ok rule pn) i l).
Proof.
  apply defined_for_each. intros. unfold validate_cert_sig_scheme_at.
  auto 6 with s2n_flag.
Qed.

(** A guarded call fails, and the caller with it, or succeeds, and the
    caller goes on. *)
Lemma bind_defined_cases {A B} (m : M A) (k : A -> M B) r :
  defined m ->
  returns_error (fst (bind m k r)) = true
  \/ exists a r', bind m k r = k a r'.
Proof.
  intros Hm. unfold bind. specialize (Hm r).
  destruct (m r) as [[[a | e] | ] r']; simpl in *.
  - right. now exists a, r'.
  - now left.
  - congruence.
Qed.

(** ** Properties of the selector *)

(** C5: a policy whose rule flags have no bit set selects the empty list of
    rules, which is a success, and
    [s2n_security_policy_validate_security_rules] on it succeeds and leaves
    the result as it was: [found_error] keeps its value ([false] on a fresh
    result) and nothing is appended to the buffer. *)
Theorem no_rule_selected (p : s2n_security_policy) (max_rules_count : nat)
    (r : s2n_security_rule_result) :
  rules p = 0%N ->
  s2n_security_policy_get_security_rules rules_count_max rule_table (Some p)
    max_rules_count = S2N_RESULT_OK []
  /\ s2n_security_policy_validate_security_rules s2n_realloc_ok rules_count_max
       rule_table (Some p) r = (Returns (S2N_RESULT_OK tt), r).
Proof.
  intros H.
  assert (E : forall mx,
             s2n_security_policy_get_security_rules rules_count_max rule_table
               (Some p) mx = S2N_RESULT_OK []).
  { intros mx. now rewrite get_security_rules_select, H, set_bits_below_0. }
  split; [ apply E | ].
  unfold s2n_security_policy_validate_security_rules. now rewrite E.
Qed.

Lemma set_bits_below_10 n : 4 <= n -> set_bits_below n 10 = [1; 3].
Proof.
  intros H. do 4 (destruct n as [| n]; [ lia | ]).
  rewrite !set_bits_below_S. simpl. now rewrite set_bits_below_0.
Qed.

Lemma rules_at_length sel :
  Forall (fun k => k < List.length rule_table) sel ->
  List.length (rules_at rule_table sel) = List.length sel.
Proof using rule_table.
  induction 1 as [| k sel Hk _ IH]; [ reflexivity | ].
  apply nth_error_Some in Hk. simpl.
  destruct (nth_error rule_table k); [ | congruence ].
  simpl. now rewrite IH.
Qed.

(** C6, as amended: rule selection walks the [rules_count_max] low-order
    bits of the flags from bit 0 upward.  When it succeeds, the selected
    offsets are exactly the identifiers below [rules_count_max] whose bit is
    set, in ascending order; when the flags have no bit at or above
    [rules_count_max], these are all the set bits.  It succeeds when every
    such identifier indexes a table entry and the array has room, and then
    there is one table entry per selected offset.  With at least four rules,
    the flags with bits 1 and 3 select the entries 1 and 3 of the table, in
    that order. *)
Theorem selection_walks_low_bits (p : s2n_security_policy) (max_rules_count : nat) :
  (forall sel,
      s2n_security_policy_get_security_rules rules_count_max rule_table (Some p)
        max_rules_count = S2N_RESULT_OK sel ->
      sel = set_bits_below rules_count_max (rules p)
      /\ StronglySorted lt sel
      /\ (forall k, In k sel
                    <-> k < rules_count_max
                        /\ N.testbit (rules p) (N.of_nat k) = true)
      /\ ((rules p < 2 ^ N.of_nat rules_count_max)%N ->
          forall k, In k sel <-> N.testbit (rules p) (N.of_nat k) = true))
  /\ (Forall (fun k => k < List.length rule_table)
             (set_bits_below rules_count_max (rules p)) ->
      List.length (set_bits_below rules_count_max (rules p)) <= max_rules_count ->
      s2n_security_policy_get_security_rules rules_count_max rule_table (Some p)
        max_rules_count
      = S2N_RESULT_OK (set_bits_below rules_count_max (rules p))
      /\ List.length (rules_at rule_table (set_bits_below rules_count_max (rules p)))
         = List.length (set_bits_below rules_count_max (rules p)))
  /\ (forall rule1 rule3,
         rules p = 10%N -> 4 <= rules_count_max ->
         nth_error rule_table 1 = Some rule1 ->
         nth_error rule_table 3 = Some rule3 ->
         s2n_security_policy_get_security_rules rules_count_max rule_table (Some p)
           rules_count_max = S2N_RESULT_OK [1; 3]
         /\ rules_at rule_table [1; 3] = [rule1; rule3]).
Proof using rules_count_max rule_table.
  repeat apply conj.
  - intros sel H. rewrite get_security_rules_select in H.
    apply select_offsets_ok_inv in H. simpl in H. subst sel.
    repeat apply conj.
    + reflexivity.
    + apply set_bits_below_ascending.
    + intros k. apply set_bits_below_In.
    + intros Hlt k. rewrite set_bits_below_In. split; [ intros [_ Hb]; exact Hb | ].
      intros Hk. split; [ | exact Hk ].
      destruct (Nat.lt_ge_cases k rules_count_max) as [Hl | Hg]; [ exact Hl | ].
      rewrite <- (N.mod_small _ _ Hlt) in Hk.
      rewrite N.mod_pow2_bits_high in Hk; [ discriminate | lia ].
  - intros Hin Hlen. split; [ | now apply rules_at_length ].
    rewrite get_security_rules_select, select_offsets_ok; trivial.
    eapply Forall_impl; [ | exact Hin ]. intros k Hk. simpl in Hk. lia.
  - intros rule1 rule3 Hp Hc H1 H3.
    assert (Hlen : 3 < List.length rule_table)
      by (apply nth_error_Some; congruence).
    split.
    + rewrite get_security_rules_select, Hp, set_bits_below_10; trivial.
      rewrite select_offsets_ok; trivial.
      * repeat constructor; lia.
      * simpl. lia.
    + unfold rules_at. cbn [flat_map]. now rewrite H1, H3.
Qed.

(** C4, as amended: rule selection reads the [rules_count_max] low-order
    bits of the flags only, so a policy and the same policy without its bits
    at or above [rules_count_max] select alike.  A set bit below
    [rules_count_max] whose identifier is greater than the number of table
    entries makes the selection fail, and
    [s2n_security_policy_validate_security_rules] with it, the result
    untouched; the identifier equal to the number of table entries is not
    covered by this statement.  The selection fails as well when more bits
    are set below [rules_count_max] than the array has room for; that number
    never exceeds [rules_count_max], the room the validator provides. *)
Theorem selection_hard_errors (p : s2n_security_policy) (max_rules_count : nat)
    (r : s2n_security_rule_result) :
  ((exists k, k < rules_count_max
              /\ N.testbit (rules p) (N.of_nat k) = true
              /\ List.length rule_table < k) ->
   s2n_security_policy_get_security_rules rules_count_max rule_table (Some p)
     max_rules_count = S2N_RESULT_ERROR S2N_ERR_SAFETY
   /\ s2n_security_policy_validate_security_rules s2n_realloc_ok rules_count_max
        rule_table (Some p) r = (Returns (S2N_RESULT_ERROR S2N_ERR_SAFETY), r))
  /\ (max_rules_count < List.length (set_bits_below rules_count_max (rules p)) ->
      s2n_security_policy_get_security_rules rules_count_max rule_table (Some p)
        max_rules_count = S2N_RESULT_ERROR S2N_ERR_SAFETY)
  /\ List.length (set_bits_below rules_count_max (rules p)) <= rules_count_max
  /\ s2n_security_policy_get_security_rules rules_count_max rule_table
       (Some (with_rules (rules p mod 2 ^ N.of_nat rules_count_max) p))
       max_rules_count
     = s2n_security_policy_get_security_rules rules_count_max rule_table (Some p)
         max_rules_count.
Proof.
  repeat apply conj.
  - intros (k & Hk & Hb & Hlen).
    assert (E : forall mx,
               s2n_security_policy_get_security_rules rules_count_max rule_table
                 (Some p) mx = S2N_RESULT_ERROR S2N_ERR_SAFETY).
    { intros mx. rewrite get_security_rules_select.
      apply select_offsets_out_of_range, Exists_exists.
      exists k. split; [ now apply set_bits_below_In | exact Hlen ]. }
    split; [ apply E | ].
    unfold s2n_security_policy_validate_security_rules. now rewrite E.
  - intros Hlen. rewrite get_security_rules_select.
    destruct (select_offsets_no_room (List.length rule_table) max_rules_count
                (set_bits_below rules_count_max (rules p)) []) as [E | [_ E]].
    + simpl. lia.
    + exact E.
    + rewrite E in Hlen. simpl in Hlen. lia.
  - unfold set_bits_below.
    apply Nat.le_trans with (List.length (seq 0 rules_count_max));
      [ apply filter_length_le | now rewrite length_seq ].
  - rewrite !get_security_rules_select. simpl rules.
    now rewrite set_bits_below_mod.
Qed.

(** ** Properties of the validator *)

Lemma violation_lines_length rule p :
  List.length (violation_lines rule p) = failed_count rule p.
Proof.
  unfold violation_lines, failed_count, cipher_suite_lines, sig_scheme_lines,
    cert_sig_scheme_lines, curve_lines.
  rewrite !length_app, !length_map. lia.
Qed.

Lemma active_violation_lines_length active p :
  List.length (active_violation_lines active p) = active_failed_count active p.
Proof.
  unfold active_violation_lines, active_failed_count.
  induction active as [| rule active IH]; [ reflexivity | ].
  simpl. now rewrite length_app, violation_lines_length, IH.
Qed.

Lemma capturing_writable r : capturing r = true -> writable r.
Proof.
  unfold capturing, writable. intros H _. now apply andb_true_iff in H.
Qed.

Lemma record_lines_text lines r :
  capturing r = true ->
  stuffer_data (output (record_lines lines r))
  = (stuffer_data (output r) ++ text_of_lines lines)%string.
Proof.
  unfold capturing. intros H. apply andb_true_iff in H. destruct H as [Hw _].
  destruct lines as [| l lines]; simpl; [ now rewrite append_nil_r | ].
  now rewrite Hw.
Qed.

(** C2: violations never stop the validation.  When no internal error
    occurs (the selected offsets index the table, the mandatory lists are
    there, every entry of every present list can be evaluated by every
    active rule, the buffer can grow), the validation of all the active
    rules succeeds and, on a capturing result, appends exactly the lines of
    [active_violation_lines]: one line, with its line break, per (rule,
    category entry) pair whose predicate returned false, for every active
    rule, every category and every entry, in order and with repetitions.
    Their number is the number of such pairs summed over the active rules.
    The same holds for the validation of each active rule alone. *)
Theorem every_violation_recorded (p : s2n_security_policy) (sel : list nat)
    (r : s2n_security_rule_result) :
  (forall n, s2n_realloc_ok n = true) ->
  s2n_security_policy_get_security_rules rules_count_max rule_table (Some p)
    rules_count_max = S2N_RESULT_OK sel ->
  Forall (fun ptr => ptr < List.length rule_table) sel ->
  forallb (fun rule => policy_evaluable rule p) (rules_at rule_table sel) = true ->
  capturing r = true ->
  s2n_security_policy_validate_security_rules s2n_realloc_ok rules_count_max
    rule_table (Some p) r
  = (Returns (S2N_RESULT_OK tt),
     record_lines (active_violation_lines (rules_at rule_table sel) p) r)
  /\ stuffer_data
       (output (record_lines (active_violation_lines (rules_at rule_table sel) p) r))
     = (stuffer_data (output r)
          ++ text_of_lines (active_violation_lines (rules_at rule_table sel) p))%string
  /\ List.length (active_violation_lines (rules_at rule_table sel) p)
     = active_failed_count (rules_at rule_table sel) p
  /\ (forall rule, In rule (rules_at rule_table sel) ->
        s2n_security_rule_validate_policy s2n_realloc_ok (Some rule) (Some p) r
        = (Returns (S2N_RESULT_OK tt), record_lines (violation_lines rule p) r)
        /\ stuffer_data (output (record_lines (violation_lines rule p) r))
           = (stuffer_data (output r) ++ text_of_lines (violation_lines rule p))%string
        /\ List.length (violation_lines rule p) = failed_count rule p).
Proof.
  intros Hg Hsel Hin Hev Hc.
  pose proof (capturing_writable r Hc) as W.
  repeat apply conj.
  - now apply validate_security_rules_records.
  - now apply record_lines_text.
  - apply active_violation_lines_length.
  - intros rule Hr. rewrite forallb_forall in Hev.
    repeat apply conj.
    + apply validate_policy_records; auto.
    + now apply record_lines_text.
    + apply violation_lines_length.
Qed.

(** A policy without a certificate-signature list is validated exactly as
    the same policy with an empty one; a missing cipher-suite list makes the
    call return [S2N_ERR_NULL] at once; a missing signature-scheme list or a
    missing curve list makes it return an error, whatever the other lists
    hold. *)
Lemma missing_lists_return_an_error (rule : s2n_security_rule)
    (p : s2n_security_policy) (r : s2n_security_rule_result) :
  (certificate_signature_preferences p = None ->
   s2n_security_rule_validate_policy s2n_realloc_ok (Some rule) (Some p) r
   = s2n_security_rule_validate_policy s2n_realloc_ok (Some rule)
       (Some (with_certificate_signature_preferences
                (Some {| signature_schemes := [] |}) p)) r
   /\ cert_sig_scheme_lines rule p = []
   /\ ((forall n, s2n_realloc_ok n = true) ->
       policy_evaluable rule p = true -> writable r ->
       s2n_security_rule_validate_policy s2n_realloc_ok (Some rule) (Some p) r
       = (Returns (S2N_RESULT_OK tt),
          record_lines (cipher_suite_lines rule p ++ sig_scheme_lines rule p
                          ++ curve_lines rule p) r)))
  /\ (cipher_preferences p = None ->
      s2n_security_rule_validate_policy s2n_realloc_ok (Some rule) (Some p) r
      = (Returns (S2N_RESULT_ERROR S2N_ERR_NULL), r))
  /\ (signature_preferences p = None ->
      returns_error
        (fst (s2n_security_rule_validate_policy s2n_realloc_ok (Some rule) (Some p) r))
      = true)
  /\ (ecc_preferences p = None ->
      returns_error
        (fst (s2n_security_rule_validate_policy s2n_realloc_ok (Some rule) (Some p) r))
      = true).
Proof.
  repeat apply conj.
  - intros Hc.
    assert (L : cert_sig_scheme_lines rule p = []).
    { unfold cert_sig_scheme_lines, cert_sig_scheme_entries. now rewrite Hc. }
    repeat apply conj.
    + destruct p as [v c s cs e fl]. simpl in Hc. subst cs. reflexivity.
    + exact L.
    + intros Hg He W. rewrite (validate_policy_records Hg rule p r He W).
      unfold violation_lines. now rewrite L.
  - intros Hc. unfold s2n_security_rule_validate_policy.
    simpl RESULT_ENSURE_REF. now rewrite !bind_lift_ok, Hc.
  - intros Hs. unfold s2n_security_rule_validate_policy.
    simpl RESULT_ENSURE_REF. rewrite !bind_lift_ok.
    destruct (cipher_preferences p) as [c |]; [ | reflexivity ].
    simpl RESULT_ENSURE_REF. rewrite bind_lift_ok.
    match goal with
    | |- context [bind ?m ?k r] =>
        destruct (bind_defined_cases m k r (defined_cipher_suites _ _ _ _))
          as [E | (a & r1 & E)]
    end; [ exact E | rewrite E ].
    now rewrite Hs.
  - intros He. unfold s2n_security_rule_validate_policy.
    simpl RESULT_ENSURE_REF. rewrite !bind_lift_ok.
    destruct (cipher_preferences p) as [c |]; [ | reflexivity ].
    simpl RESULT_ENSURE_REF. rewrite bind_lift_ok.
    match goal with
    | |- context [bind ?m ?k r] =>
        destruct (bind_defined_cases m k r (defined_cipher_suites _ _ _ _))
          as [E | (a & r1 & E)]
    end; [ exact E | rewrite E; clear E ].
    destruct (signature_preferences p) as [sp |]; [ | reflexivity ].
    simpl RESULT_ENSURE_REF. rewrite bind_lift_ok.
    match goal with
    | |- context [bind ?m ?k r1] =>
        destruct (bind_defined_cases m k r1 (defined_sig_schemes _ _ _ _))
          as [E | (a2 & r2 & E)]
    end; [ exact E | rewrite E; clear E ].
    assert (D : defined
                  (match certificate_signature_preferences p with
                   | Some cert_sig_prefs =>
                       for_each (validate_cert_sig_scheme_at s2n_realloc_ok rule
                                   (policy_name_of p)) 0
                         (signature_schemes cert_sig_prefs)
                   | None => ret tt
                   end)).
    { destruct (certificate_signature_preferences p);
        [ apply defined_cert_sig_schemes | apply defined_ret ]. }
    match goal with
    | |- context [bind ?m ?k r2] =>
        destruct (bind_defined_cases m k r2 D) as [E | (a3 & r3 & E)]
    end; [ exact E | rewrite E; clear E ].
    now rewrite He.
Qed.

(** ** Further properties: what the validator leaves alone *)

Lemma stuffer_extends_refl st : stuffer_extends st st.
Proof using. split; [ reflexivity | exists ""%string; now rewrite append_nil_r ]. Qed.

Lemma stuffer_extends_trans st1 st2 st3 :
  stuffer_extends st1 st2 -> stuffer_extends st2 st3 -> stuffer_extends st1 st3.
Proof using.
  intros [G1 [s1 D1]] [G2 [s2 D2]]. split; [ congruence | ].
  exists (s1 ++ s2)%string. now rewrite D2, D1, append_assoc.
Qed.

Lemma stuffer_write_extends bytes st st' :
  s2n_stuffer_write s2n_realloc_ok bytes st = S2N_RESULT_OK st' ->
  stuffer_extends st st'.
Proof.
  unfold s2n_stuffer_write. destruct (growable st) eqn:G; simpl; [ | discriminate ].
  destruct (s2n_realloc_ok _); [ | discriminate ].
  intros H. injection H as <-. split; simpl; [ now rewrite G | now exists bytes ].
Qed.

Lemma extends_refl r : extends r r.
Proof using. repeat split; [ apply stuffer_extends_refl ]. Qed.

Lemma extends_trans r1 r2 r3 : extends r1 r2 -> extends r2 r3 -> extends r1 r3.
Proof using.
  intros (W1 & S1 & O1) (W2 & S2 & O2). repeat split.
  - congruence.
  - apply (stuffer_extends_trans _ _ _ S1 S2).
  - apply (stuffer_extends_trans _ _ _ S1 S2).
  - intros H. rewrite O2, O1; trivial. congruence.
Qed.

Lemma append_only_ret {A} (a : A) : append_only (ret a).
Proof using. intros r. apply extends_refl. Qed.

Lemma append_only_lift {A} (x : s2n_result A) : append_only (lift x).
Proof using. intros r. apply extends_refl. Qed.

Lemma append_only_undefined {A} : append_only (@undefined A).
Proof using. intros r. apply extends_refl. Qed.

Lemma append_only_bind {A B} (m : M A) (k : A -> M B) :
  append_only m -> (forall a, append_only (k a)) -> append_only (bind m k).
Proof using.
  intros Hm Hk r. unfold bind. specialize (Hm r).
  destruct (m r) as [[[a | e] | ] r']; simpl in *; trivial.
  eapply extends_trans; [ exact Hm | apply Hk ].
Qed.

Lemma append_only_process condition format vargs :
  append_only (s2n_security_rule_result_process s2n_realloc_ok condition format vargs).
Proof.
  intros r. unfold s2n_security_rule_result_process.
  destruct condition; [ apply extends_refl | ].
  unfold bind, modify_result, get_result, on_output, ret. simpl.
  destruct (write_output r) eqn:W; simpl.
  - unfold s2n_stuffer_vprintf, s2n_stuffer_write_char.
    destruct (vsnprintf format vargs) as [line |]; simpl;
      [ | repeat split; simpl; trivial; try apply stuffer_extends_refl; congruence ].
    destruct (s2n_stuffer_write s2n_realloc_ok line (output r)) as [o1 | e1] eqn:E1;
      simpl;
      [ | repeat split; simpl; trivial; try apply stuffer_extends_refl; congruence ].
    apply stuffer_write_extends in E1.
    destruct (s2n_stuffer_write s2n_realloc_ok (String "010" "") o1) as [o2 | e2] eqn:E2;
      simpl.
    + apply stuffer_write_extends in E2.
      repeat split; simpl; trivial;
        try apply (stuffer_extends_trans _ _ _ E1 E2); congruence.
    + repeat split; simpl; trivial; try apply E1; congruence.
  - repeat split; simpl; trivial; apply stuffer_extends_refl.
Qed.

Lemma append_only_for_each {A} (body : nat -> A -> M unit) :
  (forall i x, append_only (body i x)) -> forall l i, append_only (for_each body i l).
Proof using.
  intros Hb. induction l as [| x l IH]; intros i; simpl.
  - apply append_only_ret.
  - apply append_only_bind; [ apply Hb | intros _; apply IH ].
Qed.

Ltac append_only_body :=
  apply append_only_for_each; intros;
  apply append_only_bind; [ apply append_only_lift | intros ];
  apply append_only_bind; [ apply append_only_lift | intros ];
  apply append_only_process.

Lemma append_only_validate_policy rule policy :
  append_only (s2n_security_rule_validate_policy s2n_realloc_ok rule policy).
Proof.
  unfold s2n_security_rule_validate_policy.
  apply append_only_bind; [ apply append_only_lift | intros ru ].
  apply append_only_bind; [ apply append_only_lift | intros p ].
  apply append_only_bind; [ apply append_only_lift | intros c ].
  apply append_only_bind;
    [ unfold validate_cipher_suite_at; append_only_body | intros _ ].
  apply append_only_bind; [ apply append_only_lift | intros sp ].
  apply append_only_bind;
    [ unfold validate_sig_scheme_at; append_only_body | intros _ ].
  apply append_only_bind.
  { destruct (certificate_signature_preferences p);
      [ unfold validate_cert_sig_scheme_at; append_only_body | apply append_only_ret ]. }
  intros _.
  apply append_only_bind; [ apply append_only_lift | intros ep ].
  apply append_only_bind;
    [ unfold validate_curve_at; append_only_body | intros _; apply append_only_ret ].
Qed.

Lemma append_only_validate_policy_past_the_table policy :
  append_only (validate_policy_past_the_table policy).
Proof using.
  past_the_table ltac:(apply append_only_bind) ltac:(apply append_only_lift)
    ltac:(apply append_only_for_each; intros; unfold validate_entry_past_the_table;
          apply append_only_bind; [ apply append_only_lift
                                  | intros; apply append_only_undefined ])
    ltac:(apply append_only_ret).
Qed.

Lemma append_only_validate_security_rules policy :
  append_only
    (s2n_security_policy_validate_security_rules s2n_realloc_ok rules_count_max
       rule_table policy).
Proof.
  unfold s2n_security_policy_validate_security_rules.
  apply append_only_bind; [ apply append_only_lift | intros sel ].
  apply append_only_bind; [ | intros _; apply append_only_ret ].
  apply append_only_for_each. intros i ptr. unfold validate_selected_rule.
  destruct (nth_error rule_table ptr);
    [ apply append_only_validate_policy
    | apply append_only_validate_policy_past_the_table ].
Qed.

(** X1: whatever they return, [s2n_security_rule_validate_policy] and
    [s2n_security_policy_validate_security_rules] never toggle
    [write_output], never change the growth flag of the buffer, and only
    append to the buffer: its content before the call is a prefix of its
    content after.  On a result that does not capture, the buffer is the one
    it was. *)
Theorem validation_is_append_only (rule : option s2n_security_rule)
    (policy : option s2n_security_policy) (r : s2n_security_rule_result) :
  extends r (snd (s2n_security_rule_validate_policy s2n_realloc_ok rule policy r))
  /\ extends r
       (snd (s2n_security_policy_validate_security_rules s2n_realloc_ok
               rules_count_max rule_table policy r)).
Proof.
  split; [ apply append_only_validate_policy
         | apply append_only_validate_security_rules ].
Qed.

(** ** Further properties: validation without capture *)

Lemma silent_agree_lift {A} (x : s2n_result A) : silent_agree (lift x) (lift x).
Proof using. intros r W. now split. Qed.

Lemma silent_agree_ret {A} (a : A) : silent_agree (ret a) (ret a).
Proof using. intros r W. now split. Qed.

Lemma silent_agree_undefined {A} : silent_agree (@undefined A) (@undefined A).
Proof using. intros r W. now split. Qed.

Lemma silent_agree_bind {A B} (m1 m2 : M A) (k1 k2 : A -> M B) :
  silent_agree m1 m2 -> (forall a, silent_agree (k1 a) (k2 a)) ->
  silent_agree (bind m1 k1) (bind m2 k2).
Proof using.
  intros Hm Hk r W. destruct (Hm r W) as [E W']. unfold bind. rewrite <- E.
  destruct (m1 r) as [[[a | e] | ] r']; simpl in *; [ now apply Hk | now split .. ].
Qed.

Lemma silent_agree_process (alloc1 alloc2 : nat -> bool) condition format vargs :
  silent_agree (s2n_security_rule_result_process alloc1 condition format vargs)
               (s2n_security_rule_result_process alloc2 condition format vargs).
Proof using.
  intros r W. unfold s2n_security_rule_result_process.
  destruct condition; [ now split | ].
  unfold bind, modify_result, get_result, ret. simpl. rewrite W. simpl. now split.
Qed.

Lemma silent_agree_for_each {A} (body1 body2 : nat -> A -> M unit) :
  (forall i x, silent_agree (body1 i x) (body2 i x)) ->
  forall l i, silent_agree (for_each body1 i l) (for_each body2 i l).
Proof using.
  intros Hb. induction l as [| x l IH]; intros i; simpl.
  - apply silent_agree_ret.
  - apply silent_agree_bind; [ apply Hb | intros _; apply IH ].
Qed.

Ltac silent_body :=
  apply silent_agree_for_each; intros;
  apply silent_agree_bind; [ apply silent_agree_lift | intros ];
  apply silent_agree_bind; [ apply silent_agree_lift | intros ];
  apply silent_agree_process.

Lemma silent_agree_validate_policy (alloc1 alloc2 : nat -> bool) rule policy :
  silent_agree (s2n_security_rule_validate_policy alloc1 rule policy)
               (s2n_security_rule_validate_policy alloc2 rule policy).
Proof using.
  unfold s2n_security_rule_validate_policy.
  apply silent_agree_bind; [ apply silent_agree_lift | intros ru ].
  apply silent_agree_bind; [ apply silent_agree_lift | intros p ].
  apply silent_agree_bind; [ apply silent_agree_lift | intros c ].
  apply silent_agree_bind;
    [ unfold validate_cipher_suite_at; silent_body | intros _ ].
  apply silent_agree_bind; [ apply silent_agree_lift | intros sp ].
  apply silent_agree_bind;
    [ unfold validate_sig_scheme_at; silent_body | intros _ ].
  apply silent_agree_bind.
  { destruct (certificate_signature_preferences p);
      [ unfold validate_cert_sig_scheme_at; silent_body | apply silent_agree_ret ]. }
  intros _.
  apply silent_agree_bind; [ apply silent_agree_lift | intros ep ].
  apply silent_agree_bind;
    [ unfold validate_curve_at; silent_body | intros _; apply silent_agree_ret ].
Qed.

Lemma silent_agree_validate_policy_past_the_table policy :
  silent_agree (validate_policy_past_the_table policy)
               (validate_policy_past_the_table policy).
Proof using.
  past_the_table ltac:(apply silent_agree_bind) ltac:(apply silent_agree_lift)
    ltac:(apply silent_agree_for_each; intros; unfold validate_entry_past_the_table;
          apply silent_agree_bind; [ apply silent_agree_lift
                                   | intros; apply silent_agree_undefined ])
    ltac:(apply silent_agree_ret).
Qed.

Lemma silent_agree_validate_security_rules (alloc1 alloc2 : nat -> bool) policy :
  silent_agree
    (s2n_security_policy_validate_security_rules alloc1 rules_count_max rule_table
       policy)
    (s2n_security_policy_validate_security_rules alloc2 rules_count_max rule_table
       policy).
Proof using.
  unfold s2n_security_policy_validate_security_rules.
  apply silent_agree_bind; [ apply silent_agree_lift | intros sel ].
  apply silent_agree_bind; [ | intros _; apply silent_agree_ret ].
  apply silent_agree_for_each. intros i ptr. unfold validate_selected_rule.
  destruct (nth_error rule_table ptr);
    [ apply silent_agree_validate_policy
    | apply silent_agree_validate_policy_past_the_table ].
Qed.

(** X2: on a result whose [write_output] is off, the validation of a rule
    and the validation of all the active rules do not depend on the
    allocator: with any two allocators they return the same and leave the
    same result, and the buffer is the one it was. *)
Theorem silent_validation_ignores_the_allocator (other_realloc_ok : nat -> bool)
    (rule : option s2n_security_rule) (policy : option s2n_security_policy)
    (r : s2n_security_rule_result) :
  write_output r = false ->
  s2n_security_rule_validate_policy s2n_realloc_ok rule policy r
  = s2n_security_rule_validate_policy other_realloc_ok rule policy r
  /\ s2n_security_policy_validate_security_rules s2n_realloc_ok rules_count_max
       rule_table policy r
     = s2n_security_policy_validate_security_rules other_realloc_ok rules_count_max
         rule_table policy r
  /\ output (snd (s2n_security_rule_validate_policy s2n_realloc_ok rule policy r))
     = output r
  /\ output (snd (s2n_security_policy_validate_security_rules s2n_realloc_ok
                    rules_count_max rule_table policy r))
     = output r.
Proof.
  intros W. repeat apply conj.
  - now apply silent_agree_validate_policy.
  - now apply silent_agree_validate_security_rules.
  - now apply (append_only_validate_policy rule policy r).
  - now apply (append_only_validate_security_rules policy r).
Qed.

(** ** Further properties: the verdict *)

Lemma record_lines_found_error lines r :
  found_error (record_lines lines r)
  = found_error r || negb (List.length lines =? 0).
Proof using.
  destruct lines; simpl; [ now rewrite orb_false_r | now rewrite orb_true_r ].
Qed.

Lemma silenced_writable r : writable (set_write_output false r).
Proof using. intros H. discriminate. Qed.

(** ** Further properties: what the validation returns *)

(** X4: when the buffer can always grow, what
    [s2n_security_rule_validate_policy] and
    [s2n_security_policy_validate_security_rules] return does not depend on
    the result they are given: it is the same with capture on and with
    capture off, whatever the flag and the buffer. *)
Theorem capture_keeps_the_return_value (rule : option s2n_security_rule)
    (policy : option s2n_security_policy) (r1 r2 : s2n_security_rule_result) :
  (forall n, s2n_realloc_ok n = true) -> writable r1 -> writable r2 ->
  fst (s2n_security_rule_validate_policy s2n_realloc_ok rule policy r1)
  = fst (s2n_security_rule_validate_policy s2n_realloc_ok rule policy r2)
  /\ fst (s2n_security_policy_validate_security_rules s2n_realloc_ok rules_count_max
            rule_table policy r1)
     = fst (s2n_security_policy_validate_security_rules s2n_realloc_ok
              rules_count_max rule_table policy r2).
Proof.
  intros Hg W1 W2. split.
  - now apply (outcome_oblivious_validate_policy Hg rule policy r1 r2).
  - now apply (outcome_oblivious_validate_security_rules Hg policy r1 r2).
Qed.

(** ** Further properties: internal errors stop the validation *)

Lemma bind_bind {A B C} (m : M A) (k1 : A -> M B) (k2 : B -> M C) r :
  bind (bind m k1) k2 r = bind m (fun a => bind (k1 a) k2) r.
Proof using. unfold bind. now destruct (m r) as [[[a | e] | ] r']. Qed.

Lemma bind_ext {A B} (m : M A) (k k' : A -> M B) r :
  (forall a r', k a r' = k' a r') -> bind m k r = bind m k' r.
Proof using.
  intros H. unfold bind. destruct (m r) as [[[a | e] | ] r']; trivial.
Qed.

Lemma for_each_app {A} (body : nat -> A -> M unit) l1 l2 :
  forall i r,
    for_each body i (l1 ++ l2) r
    = bind (for_each body i l1)
           (fun _ => for_each body (i + List.length l1) l2) r.
Proof using.
  induction l1 as [| x l1 IH]; intros i r; simpl.
  - unfold bind, ret. now rewrite Nat.add_0_r.
  - rewrite bind_bind. apply bind_ext. intros _ r'.
    now rewrite IH, Nat.add_succ_r.
Qed.

(** A loop stops at the first entry that is null or on which the validator
    fails, with the violations of the entries before it recorded. *)
Lemma for_each_stops {A} (body : nat -> option A -> M unit)
    (validate : option A -> bool -> s2n_result bool) (line : nat -> A -> string) :
  (forall i a b r, validate (Some a) false = S2N_RESULT_OK b -> writable r ->
     body i (Some a) r
     = (Returns (S2N_RESULT_OK tt),
        record_lines (if b then [] else [line (S i) a]) r)) ->
  (forall i x e r, entry_error validate x = Some e ->
     body i x r = (Returns (S2N_RESULT_ERROR e), r)) ->
  forall pre x post e i r,
    evaluable validate pre = true -> entry_error validate x = Some e ->
    writable r ->
    for_each body i (pre ++ x :: post) r
    = (Returns (S2N_RESULT_ERROR e),
       record_lines (map (fun ia => line (fst ia) (snd ia))
                         (failed_from validate (S i) pre)) r).
Proof using.
  intros Hok Hbad pre x post e i r He Hx W.
  rewrite for_each_app.
  erewrite bind_returns_ok;
    [ | apply (for_each_records body validate line Hok pre i r He W) ].
  simpl for_each. erewrite bind_returns_error; [ reflexivity | now apply Hbad ].
Qed.

Lemma validate_cipher_suite_at_stops rule pn i x e r :
  entry_error (validate_cipher_suite rule) x = Some e ->
  validate_cipher_suite_at s2n_realloc_ok rule pn i x r
  = (Returns (S2N_RESULT_ERROR e), r).
Proof.
  unfold entry_error, validate_cipher_suite_at. destruct x as [a |]; simpl.
  - destruct (validate_cipher_suite rule (Some a) false) as [b | e'] eqn:E;
      [ discriminate | ].
    intros H. injection H as <-. reflexivity.
  - intros H. now injection H as <-.
Qed.

Lemma validate_curve_at_stops rule pn i x e r :
  entry_error (validate_curve rule) x = Some e ->
  validate_curve_at s2n_realloc_ok rule pn i x r
  = (Returns (S2N_RESULT_ERROR e), r).
Proof.
  unfold entry_error, validate_curve_at. destruct x as [a |]; simpl.
  - destruct (validate_curve rule (Some a) false) as [b | e'] eqn:E;
      [ discriminate | ].
    intros H. injection H as <-. reflexivity.
  - intros H. now injection H as <-.
Qed.

(** X5: internal errors are not aggregated.  When the cipher-suite list of
    a policy holds, after entries that can be evaluated, an entry that is
    null or on which the rule's validator fails,
    [s2n_security_rule_validate_policy] returns that error
    ([S2N_ERR_NULL] for a null entry); the violations of the entries before
    it are recorded, and nothing after it is evaluated: neither the rest of
    the list nor the other lists, whatever they hold. *)
Theorem validation_stops_at_a_bad_cipher_suite (rule : s2n_security_rule)
    (p : s2n_security_policy) (c : s2n_cipher_preferences)
    (pre post : list (option s2n_cipher_suite)) (x : option s2n_cipher_suite)
    (e : s2n_error) (r : s2n_security_rule_result) :
  (forall n, s2n_realloc_ok n = true) -> writable r ->
  cipher_preferences p = Some c -> suites c = pre ++ x :: post ->
  evaluable (validate_cipher_suite rule) pre = true ->
  entry_error (validate_cipher_suite rule) x = Some e ->
  s2n_security_rule_validate_policy s2n_realloc_ok (Some rule) (Some p) r
  = (Returns (S2N_RESULT_ERROR e),
     record_lines
       (map (fun ia => diagnostic_line (rule_name rule) (policy_name_of p)
                         "cipher suite" (cipher_suite_name (snd ia)) (fst ia))
            (failed (validate_cipher_suite rule) pre)) r).
Proof.
  intros Hg W Dc Ds He Hx.
  unfold s2n_security_rule_validate_policy.
  simpl RESULT_ENSURE_REF. rewrite !bind_lift_ok, Dc.
  simpl RESULT_ENSURE_REF. rewrite bind_lift_ok, Ds.
  erewrite bind_returns_error; [ reflexivity | ].
  apply (for_each_stops _ (validate_cipher_suite rule)
           (fun k a => diagnostic_line (rule_name rule) (policy_name_of p)
                         "cipher suite" (cipher_suite_name a) k)); trivial.
  - intros. now apply validate_cipher_suite_at_records.
  - intros. now apply validate_cipher_suite_at_stops.
Qed.

(** The three first loops of the validator, on lists that can be
    evaluated: the call is then at the test of the curve list. *)
Lemma validate_policy_before_curves rule p c sp r :
  (forall n, s2n_realloc_ok n = true) -> writable r ->
  cipher_preferences p = Some c -> signature_preferences p = Some sp ->
  evaluable (validate_cipher_suite rule) (suites c) = true ->
  evaluable (validate_sig_scheme rule) (signature_schemes sp) = true ->
  evaluable (validate_cert_sig_scheme rule) (cert_sig_scheme_entries p) = true ->
  s2n_security_rule_validate_policy s2n_realloc_ok (Some rule) (Some p) r
  = bind (lift (RESULT_ENSURE_REF (ecc_preferences p)))
         (fun ecc_prefs =>
            bind (for_each (validate_curve_at s2n_realloc_ok rule (policy_name_of p))
                           0 (ecc_curves ecc_prefs))
                 (fun _ => ret tt))
         (record_lines (cipher_suite_lines rule p ++ sig_scheme_lines rule p
                          ++ cert_sig_scheme_lines rule p) r).
Proof.
  intros Hg W Dc Ds E1 E2 E3.
  set (r1 := record_lines (cipher_suite_lines rule p) r).
  set (r2 := record_lines (sig_scheme_lines rule p) r1).
  set (r3 := record_lines (cert_sig_scheme_lines rule p) r2).
  assert (W1 : writable r1) by now apply record_lines_writable.
  assert (W2 : writable r2) by now apply record_lines_writable.
  assert (L1 : for_each (validate_cipher_suite_at s2n_realloc_ok rule (policy_name_of p))
                 0 (suites c) r = (Returns (S2N_RESULT_OK tt), r1)).
  { unfold r1, cipher_suite_lines, failed, cipher_suite_entries. rewrite Dc.
    apply (for_each_records _ (validate_cipher_suite rule)
             (fun k a => diagnostic_line (rule_name rule) (policy_name_of p)
                           "cipher suite" (cipher_suite_name a) k));
      [ intros; now apply validate_cipher_suite_at_records | exact E1 | exact W ]. }
  assert (L2 : for_each (validate_sig_scheme_at s2n_realloc_ok rule (policy_name_of p))
                 0 (signature_schemes sp) r1 = (Returns (S2N_RESULT_OK tt), r2)).
  { unfold r2, sig_scheme_lines, failed, sig_scheme_entries. rewrite Ds.
    apply (for_each_records _ (validate_sig_scheme rule)
             (fun k a => diagnostic_line (rule_name rule) (policy_name_of p)
                           "signature scheme" (render_x (iana_value a)) k));
      [ intros; now apply validate_sig_scheme_at_records | exact E2 | exact W1 ]. }
  assert (L3 : match certificate_signature_preferences p with
               | Some cert_sig_prefs =>
                   for_each (validate_cert_sig_scheme_at s2n_realloc_ok rule
                               (policy_name_of p)) 0 (signature_schemes cert_sig_prefs)
               | None => ret tt
               end r2 = (Returns (S2N_RESULT_OK tt), r3)).
  { unfold r3, cert_sig_scheme_lines, failed, cert_sig_scheme_entries in *.
    destruct (certificate_signature_preferences p) as [cp |]; [ | reflexivity ].
    apply (for_each_records _ (validate_cert_sig_scheme rule)
             (fun k a => diagnostic_line (rule_name rule) (policy_name_of p)
                           "certificate signature scheme"
                           (render_x (iana_value a)) k));
      [ intros; now apply validate_cert_sig_scheme_at_records | exact E3 | exact W2 ]. }
  unfold s2n_security_rule_validate_policy.
  simpl (RESULT_ENSURE_REF (Some _)). rewrite !bind_lift_ok, Dc.
  simpl (RESULT_ENSURE_REF (Some _)). rewrite bind_lift_ok.
  rewrite (bind_returns_ok _ _ _ _ _ L1), Ds.
  simpl (RESULT_ENSURE_REF (Some _)). rewrite bind_lift_ok.
  rewrite (bind_returns_ok _ _ _ _ _ L2).
  rewrite (bind_returns_ok _ _ _ _ _ L3).
  unfold r3, r2, r1. now rewrite !record_lines_app, <- ?app_assoc.
Qed.

(** C8: a policy without a certificate-signature list is validated exactly
    as the same policy with an empty one: the category contributes no line
    and no error, and when the rest of the policy can be evaluated the call
    succeeds with the violations of the three other categories only.  A
    missing cipher-suite list makes the call return [S2N_ERR_NULL] at once,
    the result untouched.  A missing signature-scheme list makes the call
    return an error; the call is the loop over the cipher suites followed by
    the return of [S2N_ERR_NULL], so nothing after the test runs and the
    missing list sets no flag: when the cipher suites can be evaluated it
    returns [S2N_ERR_NULL] with their violations recorded and nothing else.
    A missing curve list makes the call return an error likewise: the call
    is the three loops before the test followed by the return of
    [S2N_ERR_NULL], and when these lists can be evaluated it returns
    [S2N_ERR_NULL] with their violations recorded and nothing else. *)
Theorem missing_preference_lists (rule : s2n_security_rule)
    (p : s2n_security_policy) (r : s2n_security_rule_result) :
  (certificate_signature_preferences p = None ->
   s2n_security_rule_validate_policy s2n_realloc_ok (Some rule) (Some p) r
   = s2n_security_rule_validate_policy s2n_realloc_ok (Some rule)
       (Some (with_certificate_signature_preferences
                (Some {| signature_schemes := [] |}) p)) r
   /\ cert_sig_scheme_lines rule p = []
   /\ ((forall n, s2n_realloc_ok n = true) ->
       policy_evaluable rule p = true -> writable r ->
       s2n_security_rule_validate_policy s2n_realloc_ok (Some rule) (Some p) r
       = (Returns (S2N_RESULT_OK tt),
          record_lines (cipher_suite_lines rule p ++ sig_scheme_lines rule p
                          ++ curve_lines rule p) r)))
  /\ (cipher_preferences p = None ->
      s2n_security_rule_validate_policy s2n_realloc_ok (Some rule) (Some p) r
      = (Returns (S2N_RESULT_ERROR S2N_ERR_NULL), r))
  /\ (signature_preferences p = None ->
      returns_error
        (fst (s2n_security_rule_validate_policy s2n_realloc_ok (Some rule) (Some p) r))
      = true
      /\ (forall c,
             cipher_preferences p = Some c ->
             s2n_security_rule_validate_policy s2n_realloc_ok (Some rule) (Some p) r
             = bind (for_each (validate_cipher_suite_at s2n_realloc_ok rule
                                 (policy_name_of p)) 0 (suites c))
                    (fun _ => lift (S2N_RESULT_ERROR S2N_ERR_NULL)) r
             /\ ((forall n, s2n_realloc_ok n = true) ->
                 evaluable (validate_cipher_suite rule) (suites c) = true ->
                 writable r ->
                 s2n_security_rule_validate_policy s2n_realloc_ok (Some rule)
                   (Some p) r
                 = (Returns (S2N_RESULT_ERROR S2N_ERR_NULL),
                    record_lines (cipher_suite_lines rule p) r))))
  /\ (ecc_preferences p = None ->
      returns_error
        (fst (s2n_security_rule_validate_policy s2n_realloc_ok (Some rule) (Some p) r))
      = true
      /\ (forall c sp,
             cipher_preferences p = Some c -> signature_preferences p = Some sp ->
             s2n_security_rule_validate_policy s2n_realloc_ok (Some rule) (Some p) r
             = bind (for_each (validate_cipher_suite_at s2n_realloc_ok rule
                                 (policy_name_of p)) 0 (suites c))
                 (fun _ =>
                    bind (for_each (validate_sig_scheme_at s2n_realloc_ok rule
                                      (policy_name_of p)) 0 (signature_schemes sp))
                      (fun _ =>
                         bind (match certificate_signature_preferences p with
                               | Some cert_sig_prefs =>
                                   for_each (validate_cert_sig_scheme_at
                                               s2n_realloc_ok rule (policy_name_of p))
                                     0 (signature_schemes cert_sig_prefs)
                               | None => ret tt
                               end)
                           (fun _ => lift (S2N_RESULT_ERROR S2N_ERR_NULL)))) r
             /\ ((forall n, s2n_realloc_ok n = true) ->
                 evaluable (validate_cipher_suite rule) (suites c) = true ->
                 evaluable (validate_sig_scheme rule) (signature_schemes sp) = true ->
                 evaluable (validate_cert_sig_scheme rule) (cert_sig_scheme_entries p)
                 = true ->
                 writable r ->
                 s2n_security_rule_validate_policy s2n_realloc_ok (Some rule)
                   (Some p) r
                 = (Returns (S2N_RESULT_ERROR S2N_ERR_NULL),
                    record_lines (cipher_suite_lines rule p ++ sig_scheme_lines rule p
                                    ++ cert_sig_scheme_lines rule p) r)))).
Proof.
  destruct (missing_lists_return_an_error rule p r) as (B1 & B2 & B3 & B4).
  repeat apply conj; trivial.
  - intros Ds. split; [ now apply B3 | ]. intros c Dc.
    assert (Eq : s2n_security_rule_validate_policy s2n_realloc_ok (Some rule)
                   (Some p) r
                 = bind (for_each (validate_cipher_suite_at s2n_realloc_ok rule
                                     (policy_name_of p)) 0 (suites c))
                        (fun _ => lift (S2N_RESULT_ERROR S2N_ERR_NULL)) r).
    { unfold s2n_security_rule_validate_policy.
      simpl (RESULT_ENSURE_REF (Some _)). rewrite !bind_lift_ok, Dc.
      simpl (RESULT_ENSURE_REF (Some _)). rewrite bind_lift_ok.
      apply bind_ext. intros _ r'. now rewrite Ds. }
    split; [ exact Eq | ].
    intros Hg E1 W. rewrite Eq.
    erewrite bind_returns_ok; [ reflexivity | ].
    unfold cipher_suite_lines, failed, cipher_suite_entries. rewrite Dc.
    apply (for_each_records _ (validate_cipher_suite rule)
             (fun k a => diagnostic_line (rule_name rule) (policy_name_of p)
                           "cipher suite" (cipher_suite_name a) k));
      [ intros; now apply validate_cipher_suite_at_records | exact E1 | exact W ].
  - intros De. split; [ now apply B4 | ]. intros c sp Dc Ds. split.
    + unfold s2n_security_rule_validate_policy.
      simpl (RESULT_ENSURE_REF (Some _)). rewrite !bind_lift_ok, Dc.
      simpl (RESULT_ENSURE_REF (Some _)). rewrite bind_lift_ok.
      apply bind_ext. intros _ r1. rewrite Ds.
      simpl (RESULT_ENSURE_REF (Some _)). rewrite bind_lift_ok.
      apply bind_ext. intros _ r2. apply bind_ext. intros _ r3.
      now rewrite De.
    + intros Hg E1 E2 E3 W.
      rewrite (validate_policy_before_curves rule p c sp r Hg W Dc Ds E1 E2 E3).
      now rewrite De.
Qed.

(** X7: the mandatory lists are tested one after the other, each right
    before its loop.  A policy without a signature-scheme list has its
    cipher suites validated first: the call returns [S2N_ERR_NULL] with the
    cipher-suite violations recorded.  A policy without a curve list has its
    cipher suites, signature schemes and certificate signature schemes
    validated first: the call returns [S2N_ERR_NULL] with the violations of
    these three categories recorded. *)
Theorem missing_lists_are_found_late (rule : s2n_security_rule)
    (p : s2n_security_policy) (c : s2n_cipher_preferences)
    (r : s2n_security_rule_result) :
  (forall n, s2n_realloc_ok n = true) -> writable r ->
  cipher_preferences p = Some c ->
  evaluable (validate_cipher_suite rule) (suites c) = true ->
  (signature_preferences p = None ->
   s2n_security_rule_validate_policy s2n_realloc_ok (Some rule) (Some p) r
   = (Returns (S2N_RESULT_ERROR S2N_ERR_NULL),
      record_lines (cipher_suite_lines rule p) r))
  /\ (forall sp,
         signature_preferences p = Some sp ->
         evaluable (validate_sig_scheme rule) (signature_schemes sp) = true ->
         evaluable (validate_cert_sig_scheme rule) (cert_sig_scheme_entries p) = true ->
         ecc_preferences p = None ->
         s2n_security_rule_validate_policy s2n_realloc_ok (Some rule) (Some p) r
         = (Returns (S2N_RESULT_ERROR S2N_ERR_NULL),
            record_lines (cipher_suite_lines rule p ++ sig_scheme_lines rule p
                            ++ cert_sig_scheme_lines rule p) r)).
Proof.
  intros Hg W Dc E1. split.
  - intros Ds.
    assert (L1 : for_each (validate_cipher_suite_at s2n_realloc_ok rule
                             (policy_name_of p)) 0 (suites c) r
                 = (Returns (S2N_RESULT_OK tt),
                    record_lines (cipher_suite_lines rule p) r)).
    { unfold cipher_suite_lines, failed, cipher_suite_entries. rewrite Dc.
      apply (for_each_records _ (validate_cipher_suite rule)
               (fun k a => diagnostic_line (rule_name rule) (policy_name_of p)
                             "cipher suite" (cipher_suite_name a) k));
        [ intros; now apply validate_cipher_suite_at_records | exact E1 | exact W ]. }
    unfold s2n_security_rule_validate_policy.
    simpl (RESULT_ENSURE_REF (Some _)). rewrite !bind_lift_ok, Dc.
    simpl (RESULT_ENSURE_REF (Some _)). rewrite bind_lift_ok.
    now rewrite (bind_returns_ok _ _ _ _ _ L1), Ds.
  - intros sp Ds E2 E3 De.
    rewrite (validate_policy_before_curves rule p c sp r Hg W Dc Ds E1 E2 E3).
    now rewrite De.
Qed.

(** X8: a curve that is null, or on which the rule's validator fails, stops
    the validation at the very end: the call returns that error with the
    violations of the cipher suites, the signature schemes, the certificate
    signature schemes and the curves before it recorded. *)
Theorem validation_stops_at_a_bad_curve (rule : s2n_security_rule)
    (p : s2n_security_policy) (c : s2n_cipher_preferences)
    (sp : s2n_signature_preferences) (ep : s2n_ecc_preferences)
    (pre post : list (option s2n_ecc_named_curve)) (x : option s2n_ecc_named_curve)
    (e : s2n_error) (r : s2n_security_rule_result) :
  (forall n, s2n_realloc_ok n = true) -> writable r ->
  cipher_preferences p = Some c -> signature_preferences p = Some sp ->
  ecc_preferences p = Some ep ->
  evaluable (validate_cipher_suite rule) (suites c) = true ->
  evaluable (validate_sig_scheme rule) (signature_schemes sp) = true ->
  evaluable (validate_cert_sig_scheme rule) (cert_sig_scheme_entries p) = true ->
  ecc_curves ep = pre ++ x :: post ->
  evaluable (validate_curve rule) pre = true ->
  entry_error (validate_curve rule) x = Some e ->
  s2n_security_rule_validate_policy s2n_realloc_ok (Some rule) (Some p) r
  = (Returns (S2N_RESULT_ERROR e),
     record_lines
       (cipher_suite_lines rule p ++ sig_scheme_lines rule p
          ++ cert_sig_scheme_lines rule p
          ++ map (fun ia => diagnostic_line (rule_name rule) (policy_name_of p)
                              "curve" (curve_name (snd ia)) (fst ia))
                 (failed (validate_curve rule) pre)) r).
Proof.
  intros Hg W Dc Ds De E1 E2 E3 Dl E4 Hx.
  rewrite (validate_policy_before_curves rule p c sp r Hg W Dc Ds E1 E2 E3).
  rewrite De. simpl (RESULT_ENSURE_REF (Some _)). rewrite bind_lift_ok, Dl.
  erewrite bind_returns_error.
  2:{ apply (for_each_stops _ (validate_curve rule)
               (fun k a => diagnostic_line (rule_name rule) (policy_name_of p)
                             "curve" (curve_name a) k));
        [ intros; now apply validate_curve_at_records
        | intros; now apply validate_curve_at_stops
        | exact E4 | exact Hx | now apply record_lines_writable ]. }
  now rewrite record_lines_app, <- !app_assoc.
Qed.

(** X6: successive validations on one result accumulate.  When the buffer
    can always grow and both policies can be evaluated, validating a first
    rule and policy and then a second rule and policy on the result the
    first call left records the violations of the first followed by those of
    the second. *)
Theorem successive_validations_accumulate (rule1 rule2 : s2n_security_rule)
    (p1 p2 : s2n_security_policy) (r : s2n_security_rule_result) :
  (forall n, s2n_realloc_ok n = true) -> writable r ->
  policy_evaluable rule1 p1 = true -> policy_evaluable rule2 p2 = true ->
  s2n_security_rule_validate_policy s2n_realloc_ok (Some rule2) (Some p2)
    (snd (s2n_security_rule_validate_policy s2n_realloc_ok (Some rule1) (Some p1) r))
  = (Returns (S2N_RESULT_OK tt),
     record_lines (violation_lines rule1 p1 ++ violation_lines rule2 p2) r).
Proof.
  intros Hg W H1 H2.
  rewrite (validate_policy_records Hg rule1 p1 r H1 W). simpl snd.
  rewrite (validate_policy_records Hg rule2 p2 _ H2
             (record_lines_writable _ r W)).
  now rewrite record_lines_app.
Qed.

(** ** Further properties: an allocator that refuses *)

Lemma process_refused condition format vargs line r :
  (forall n, s2n_realloc_ok n = false) ->
  vsnprintf format vargs = Some line -> capturing r = true ->
  s2n_security_rule_result_process s2n_realloc_ok condition format vargs r
  = if condition then (Returns (S2N_RESULT_OK tt), r)
    else (Returns (S2N_RESULT_ERROR S2N_ERR_ALLOC), set_found_error true r).
Proof.
  intros Hr Hf Hc. unfold capturing in Hc. apply andb_true_iff in Hc.
  destruct Hc as [Hw Hgr]. unfold s2n_security_rule_result_process.
  destruct condition; [ reflexivity | ].
  unfold bind, modify_result, get_result, on_output, ret, s2n_stuffer_vprintf,
    s2n_stuffer_write. simpl. rewrite Hw, Hf. simpl. now rewrite Hgr, Hr.
Qed.

(** One loop under an allocator that refuses: it passes when no entry fails
    and stops at the first violation otherwise. *)
Lemma for_each_refused {A} (body : nat -> option A -> M unit)
    (validate : option A -> bool -> s2n_result bool) :
  (forall i a b r, validate (Some a) false = S2N_RESULT_OK b ->
     capturing r = true ->
     body i (Some a) r
     = if b then (Returns (S2N_RESULT_OK tt), r)
       else (Returns (S2N_RESULT_ERROR S2N_ERR_ALLOC), set_found_error true r)) ->
  forall l i r, evaluable validate l = true -> capturing r = true ->
    for_each body i l r
    = match failed_from validate (S i) l with
      | [] => (Returns (S2N_RESULT_OK tt), r)
      | _ :: _ => (Returns (S2N_RESULT_ERROR S2N_ERR_ALLOC), set_found_error true r)
      end.
Proof using.
  intros Hb. induction l as [| x l IH]; intros i r He Hc; [ reflexivity | ].
  simpl in He. apply andb_true_iff in He. destruct He as [Hx He].
  destruct x as [a |]; [ | discriminate ].
  destruct (validate (Some a) false) as [b | e] eqn:Ev; [ | discriminate ].
  simpl for_each. unfold failed_from. simpl. rewrite Ev.
  destruct b; simpl.
  - rewrite (bind_returns_ok _ _ _ _ _ (Hb i a true r Ev Hc)). now apply IH.
  - now rewrite (bind_returns_error _ _ _ _ _ (Hb i a false r Ev Hc)).
Qed.

Ltac refused_body Hr validate_eq :=
  simpl; rewrite bind_lift_ok, validate_eq, bind_lift_ok;
  eapply (process_refused _ _ _ _ _ Hr); [ rewrite Nat.add_1_r | assumption ].

Lemma validate_policy_refused rule p r :
  (forall n, s2n_realloc_ok n = false) ->
  policy_evaluable rule p = true -> capturing r = true ->
  s2n_security_rule_validate_policy s2n_realloc_ok (Some rule) (Some p) r
  = match violation_lines rule p with
    | [] => (Returns (S2N_RESULT_OK tt), r)
    | _ :: _ => (Returns (S2N_RESULT_ERROR S2N_ERR_ALLOC), set_found_error true r)
    end.
Proof.
  intros Hr He Hc. unfold policy_evaluable in He. rewrite !andb_true_iff in He.
  destruct He as [[[[[[Hc1 Hs] Hp] E1] E2] E3] E4].
  unfold violation_lines, cipher_suite_lines, sig_scheme_lines,
    cert_sig_scheme_lines, curve_lines, failed.
  unfold cipher_suite_entries, sig_scheme_entries, curve_entries in *.
  destruct (cipher_preferences p) as [c |] eqn:Dc; [ | discriminate ].
  destruct (signature_preferences p) as [sp |] eqn:Ds; [ | discriminate ].
  destruct (ecc_preferences p) as [ep |] eqn:De; [ | discriminate ].
  pose proof (for_each_refused
                (validate_cipher_suite_at s2n_realloc_ok rule (policy_name_of p))
                (validate_cipher_suite rule)) as L1.
  pose proof (for_each_refused
                (validate_sig_scheme_at s2n_realloc_ok rule (policy_name_of p))
                (validate_sig_scheme rule)) as L2.
  pose proof (for_each_refused
                (validate_cert_sig_scheme_at s2n_realloc_ok rule (policy_name_of p))
                (validate_cert_sig_scheme rule)) as L3.
  pose proof (for_each_refused
                (validate_curve_at s2n_realloc_ok rule (policy_name_of p))
                (validate_curve rule)) as L4.
  specialize (L1 ltac:(intros i a b r0 Ev C0; unfold validate_cipher_suite_at;
                       refused_body Hr Ev; apply vsnprintf_format_name)
                 (suites c) 0 r E1 Hc).
  specialize (L2 ltac:(intros i a b r0 Ev C0; unfold validate_sig_scheme_at;
                       refused_body Hr Ev; apply vsnprintf_format_iana)
                 (signature_schemes sp) 0 r E2 Hc).
  specialize (L3 ltac:(intros i a b r0 Ev C0; unfold validate_cert_sig_scheme_at;
                       refused_body Hr Ev; apply vsnprintf_format_iana)
                 (cert_sig_scheme_entries p) 0 r E3 Hc).
  specialize (L4 ltac:(intros i a b r0 Ev C0; unfold validate_curve_at;
                       refused_body Hr Ev; apply vsnprintf_format_name)
                 (ecc_curves ep) 0 r E4 Hc).
  unfold s2n_security_rule_validate_policy.
  simpl (RESULT_ENSURE_REF (Some _)). rewrite !bind_lift_ok, Dc.
  simpl (RESULT_ENSURE_REF (Some _)). rewrite bind_lift_ok.
  destruct (failed_from (validate_cipher_suite rule) 1 (suites c)) as [| v1 f1];
    [ rewrite (bind_returns_ok _ _ _ _ _ L1)
    | now rewrite (bind_returns_error _ _ _ _ _ L1) ].
  rewrite Ds. simpl (RESULT_ENSURE_REF (Some _)). rewrite bind_lift_ok.
  destruct (failed_from (validate_sig_scheme rule) 1 (signature_schemes sp))
    as [| v2 f2];
    [ rewrite (bind_returns_ok _ _ _ _ _ L2)
    | now rewrite (bind_returns_error _ _ _ _ _ L2) ].
  assert (L3' : match certificate_signature_preferences p with
                | Some cert_sig_prefs =>
                    for_each (validate_cert_sig_scheme_at s2n_realloc_ok rule
                                (policy_name_of p)) 0 (signature_schemes cert_sig_prefs)
                | None => ret tt
                end r
                = match failed_from (validate_cert_sig_scheme rule) 1
                          (cert_sig_scheme_entries p) with
                  | [] => (Returns (S2N_RESULT_OK tt), r)
                  | _ :: _ => (Returns (S2N_RESULT_ERROR S2N_ERR_ALLOC),
                               set_found_error true r)
                  end).
  { unfold cert_sig_scheme_entries in *.
    destruct (certificate_signature_preferences p); [ exact L3 | reflexivity ]. }
  destruct (failed_from (validate_cert_sig_scheme rule) 1 (cert_sig_scheme_entries p))
    as [| v3 f3];
    [ rewrite (bind_returns_ok _ _ _ _ _ L3')
    | now rewrite (bind_returns_error _ _ _ _ _ L3') ].
  rewrite De. simpl (RESULT_ENSURE_REF (Some _)). rewrite bind_lift_ok.
  destruct (failed_from (validate_curve rule) 1 (ecc_curves ep)) as [| v4 f4];
    [ now rewrite (bind_returns_ok _ _ _ _ _ L4)
    | now rewrite (bind_returns_error _ _ _ _ _ L4) ].
Qed.

(** X9: growth failure is a hard error that comes after the flag is set.
    On a capturing result, with an allocator that refuses every request,
    the validation of a rule on a policy it can evaluate succeeds and
    leaves the result untouched when no entry fails; otherwise it stops at
    the first violation and returns [S2N_ERR_ALLOC], with [found_error] set
    and the buffer as it was. *)
Theorem refused_growth_stops_the_validation (rule : s2n_security_rule)
    (p : s2n_security_policy) (r : s2n_security_rule_result) :
  (forall n, s2n_realloc_ok n = false) ->
  policy_evaluable rule p = true -> capturing r = true ->
  (failed_count rule p = 0 ->
   s2n_security_rule_validate_policy s2n_realloc_ok (Some rule) (Some p) r
   = (Returns (S2N_RESULT_OK tt), r))
  /\ (0 < failed_count rule p ->
      s2n_security_rule_validate_policy s2n_realloc_ok (Some rule) (Some p) r
      = (Returns (S2N_RESULT_ERROR S2N_ERR_ALLOC), set_found_error true r)).
Proof.
  intros Hr He Hc. rewrite (validate_policy_refused rule p r Hr He Hc).
  rewrite <- violation_lines_length.
  destruct (violation_lines rule p); simpl; split; intros H;
    try reflexivity; try discriminate; lia.
Qed.

(** ** Further properties: the selector and the bounds of the table *)

Lemma defined_curves rule pn l i :
  defined (for_each (validate_curve_at s2n_realloc_ok rule pn) i l).
Proof.
  apply defined_for_each. intros. unfold validate_curve_at.
  auto 6 with s2n_flag.
Qed.

Lemma defined_validate_policy rule policy :
  defined (s2n_security_rule_validate_policy s2n_realloc_ok rule policy).
Proof.
  unfold s2n_security_rule_validate_policy.
  apply defined_bind; [ apply defined_lift | intros ru ].
  apply defined_bind; [ apply defined_lift | intros p ].
  apply defined_bind; [ apply defined_lift | intros c ].
  apply defined_bind; [ apply defined_cipher_suites | intros _ ].
  apply defined_bind; [ apply defined_lift | intros sp ].
  apply defined_bind; [ apply defined_sig_schemes | intros _ ].
  apply defined_bind.
  { destruct (certificate_signature_preferences p);
      [ apply defined_cert_sig_schemes | apply defined_ret ]. }
  intros _.
  apply defined_bind; [ apply defined_lift | intros ep ].
  apply defined_bind; [ apply defined_curves | intros _; apply defined_ret ].
Qed.

Lemma for_each_defined_in {A} (body : nat -> A -> M unit) l :
  (forall i x, In x l -> defined (body i x)) ->
  forall i, defined (for_each body i l).
Proof using.
  induction l as [| x l IH]; intros Hb i; simpl.
  - apply defined_ret.
  - apply defined_bind; [ apply Hb; now left | intros _ ].
    apply IH. intros j y Hy. apply Hb. now right.
Qed.

Lemma set_bits_below_length n flags : List.length (set_bits_below n flags) <= n.
Proof using.
  unfold set_bits_below.
  apply Nat.le_trans with (List.length (seq 0 n));
    [ apply filter_length_le | now rewrite length_seq ].
Qed.

(** X10: when the table has an entry for every identifier below
    [rules_count_max], as it has in the file, rule selection with the room
    the validator gives it succeeds on every policy, whatever its flags;
    every selected pointer lies inside the table; and
    [s2n_security_policy_validate_security_rules] never reads past the
    table. *)
Theorem selection_stays_inside_the_table :
  rules_count_max <= List.length rule_table ->
  (forall p,
      s2n_security_policy_get_security_rules rules_count_max rule_table (Some p)
        rules_count_max = S2N_RESULT_OK (set_bits_below rules_count_max (rules p))
      /\ Forall (fun ptr => ptr < List.length rule_table)
                (set_bits_below rules_count_max (rules p)))
  /\ (forall policy r,
         fst (s2n_security_policy_validate_security_rules s2n_realloc_ok
                rules_count_max rule_table policy r) <> Undefined).
Proof.
  intros Hlen.
  assert (Hin : forall p, Forall (fun ptr => ptr < List.length rule_table)
                                 (set_bits_below rules_count_max (rules p))).
  { intros p. apply Forall_forall. intros k Hk.
    apply set_bits_below_In in Hk. lia. }
  assert (Hsel : forall p,
             s2n_security_policy_get_security_rules rules_count_max rule_table
               (Some p) rules_count_max
             = S2N_RESULT_OK (set_bits_below rules_count_max (rules p))).
  { intros p. rewrite get_security_rules_select. apply select_offsets_ok.
    - eapply Forall_impl; [ | apply Hin ]. intros k Hk. simpl in Hk. lia.
    - simpl. apply set_bits_below_length. }
  split; [ intros p; split; [ apply Hsel | apply Hin ] | ].
  intros [p |] r; [ | discriminate ].
  unfold s2n_security_policy_validate_security_rules.
  rewrite Hsel, bind_lift_ok.
  apply defined_bind; [ | intros _; apply defined_ret ].
  apply for_each_defined_in. intros i ptr Hptr.
  specialize (Hin p). rewrite Forall_forall in Hin. apply Hin in Hptr.
  apply nth_error_Some in Hptr. unfold validate_selected_rule.
  destruct (nth_error rule_table ptr); [ apply defined_validate_policy | congruence ].
Qed.

Lemma filter_eqb_seq k a n :
  filter (fun r => k =? r) (seq a n)
  = if (a <=? k) && (k <? a + n) then [k] else [].
Proof using.
  revert a. induction n as [| n IH]; intros a; simpl.
  - destruct (Nat.leb_spec a k); destruct (Nat.ltb_spec k (a + 0)); simpl;
      trivial; lia.
  - rewrite IH.
    destruct (Nat.eqb_spec k a); destruct (Nat.leb_spec (S a) k);
      destruct (Nat.ltb_spec k (S a + n)); destruct (Nat.leb_spec a k);
      destruct (Nat.ltb_spec k (a + S n)); simpl; subst; trivial; lia.
Qed.

Lemma set_bits_below_pow2 n k :
  k < n -> set_bits_below n (2 ^ N.of_nat k) = [k].
Proof using.
  intros H. unfold set_bits_below.
  rewrite (filter_ext _ (fun r => k =? r)).
  - rewrite filter_eqb_seq. simpl.
    apply Nat.ltb_lt in H. now rewrite H.
  - intros r. rewrite N.pow2_bits_eqb.
    destruct (Nat.eqb_spec k r) as [-> | Hne]; [ apply N.eqb_refl | ].
    apply N.eqb_neq. lia.
Qed.

(** X11: the range check of the selector is inclusive.  When
    [rules_count_max] exceeds the number of table entries, the flags whose
    only set bit is the identifier equal to that number pass the check: the
    selection succeeds with a pointer one past the end of the table, and
    [s2n_security_policy_validate_security_rules] validates the policy
    through that pointer.  It reads past the table as soon as the
    cipher-suite list has a first entry that is not null; it returns
    [S2N_ERR_NULL] without reading when the cipher-suite list is missing, and
    succeeds without reading when every list of the policy is empty. *)
Theorem identifier_one_past_the_table_is_selected (p : s2n_security_policy)
    (r : s2n_security_rule_result) :
  List.length rule_table < rules_count_max ->
  rules p = (2 ^ N.of_nat (List.length rule_table))%N ->
  s2n_security_policy_get_security_rules rules_count_max rule_table (Some p)
    rules_count_max = S2N_RESULT_OK [List.length rule_table]
  /\ nth_error rule_table (List.length rule_table) = None
  /\ (forall c x rest,
         cipher_preferences p = Some c -> suites c = Some x :: rest ->
         s2n_security_policy_validate_security_rules s2n_realloc_ok rules_count_max
           rule_table (Some p) r = (Undefined, r))
  /\ (cipher_preferences p = None ->
      s2n_security_policy_validate_security_rules s2n_realloc_ok rules_count_max
        rule_table (Some p) r = (Returns (S2N_RESULT_ERROR S2N_ERR_NULL), r))
  /\ (forall c sp ep,
         cipher_preferences p = Some c -> suites c = [] ->
         signature_preferences p = Some sp -> signature_schemes sp = [] ->
         cert_sig_scheme_entries p = [] ->
         ecc_preferences p = Some ep -> ecc_curves ep = [] ->
         s2n_security_policy_validate_security_rules s2n_realloc_ok rules_count_max
           rule_table (Some p) r = (Returns (S2N_RESULT_OK tt), r)).
Proof.
  intros Hlen Hp.
  assert (Hsel : s2n_security_policy_get_security_rules rules_count_max rule_table
                   (Some p) rules_count_max
                 = S2N_RESULT_OK [List.length rule_table]).
  { rewrite get_security_rules_select, Hp, set_bits_below_pow2 by exact Hlen.
    apply (select_offsets_ok _ _ _ []); [ repeat constructor | simpl; lia ]. }
  assert (Hnone : nth_error rule_table (List.length rule_table) = None)
    by now apply nth_error_None.
  assert (Hrun : s2n_security_policy_validate_security_rules s2n_realloc_ok
                   rules_count_max rule_table (Some p) r
                 = bind (validate_policy_past_the_table (Some p))
                        (fun _ => ret tt ;; ret tt) r).
  { unfold s2n_security_policy_validate_security_rules.
    rewrite Hsel, bind_lift_ok. simpl for_each.
    unfold validate_selected_rule. rewrite Hnone. now rewrite bind_bind. }
  repeat apply conj; trivial.
  - intros c x rest Dc Dl. rewrite Hrun.
    unfold validate_policy_past_the_table.
    simpl (RESULT_ENSURE_REF (Some _)).
    rewrite bind_bind, bind_lift_ok, Dc.
    simpl (RESULT_ENSURE_REF (Some _)).
    rewrite bind_bind, bind_lift_ok, Dl. reflexivity.
  - intros Dc. rewrite Hrun. unfold validate_policy_past_the_table.
    simpl (RESULT_ENSURE_REF (Some _)).
    rewrite bind_bind, bind_lift_ok, Dc. reflexivity.
  - intros c sp ep Dc Lc Ds Ls Lcert De Le. rewrite Hrun.
    clear Hrun Hsel Hp. unfold cert_sig_scheme_entries in Lcert.
    destruct p as [v cp sp' cc ep' fl]. simpl in *. subst cp sp' ep'.
    destruct c as [lc]. destruct sp as [ls]. destruct ep as [le].
    simpl in *. subst lc ls le.
    destruct cc as [[lcert] |]; simpl in *; [ subst lcert | ]; reflexivity.
Qed.

End Facts.

(** ** Further properties: the verdict, for every allocator *)

(** The flag after a computation, read off a run without capture and with
    an allocator that always grants. *)
Lemma found_error_by_silent_run {A} (s2n_realloc_ok : nat -> bool)
    (m : (nat -> bool) -> M A) r :
  flag_safe (m s2n_realloc_ok) ->
  silent_agree (m s2n_realloc_ok) (m always_grows) ->
  found_error (snd (m s2n_realloc_ok r))
  = found_error (snd (m always_grows (set_write_output false r))).
Proof.
  intros [_ Ho] Hs.
  destruct (Hs (set_write_output false r) eq_refl) as [E _]. rewrite <- E.
  now apply Ho.
Qed.

Lemma validate_policy_flag (s2n_realloc_ok : nat -> bool)
    (rule : s2n_security_rule) (p : s2n_security_policy)
    (r : s2n_security_rule_result) :
  policy_evaluable rule p = true ->
  found_error
    (snd (s2n_security_rule_validate_policy s2n_realloc_ok (Some rule) (Some p) r))
  = found_error r || negb (failed_count rule p =? 0).
Proof.
  intros He.
  rewrite (found_error_by_silent_run s2n_realloc_ok
             (fun alloc => s2n_security_rule_validate_policy alloc (Some rule) (Some p)));
    [ | apply flag_safe_validate_policy | apply silent_agree_validate_policy ].
  rewrite (validate_policy_records always_grows (fun _ => eq_refl) rule p _ He
             (silenced_writable r)).
  simpl snd. now rewrite record_lines_found_error, violation_lines_length.
Qed.

Lemma validate_security_rules_flag (s2n_realloc_ok : nat -> bool)
    (rules_count_max : nat) (rule_table : list s2n_security_rule)
    (p : s2n_security_policy) (sel : list nat) (r : s2n_security_rule_result) :
  s2n_security_policy_get_security_rules rules_count_max rule_table (Some p)
    rules_count_max = S2N_RESULT_OK sel ->
  Forall (fun ptr => ptr < List.length rule_table) sel ->
  forallb (fun rule => policy_evaluable rule p) (rules_at rule_table sel) = true ->
  found_error
    (snd (s2n_security_policy_validate_security_rules s2n_realloc_ok
            rules_count_max rule_table (Some p) r))
  = found_error r || negb (active_failed_count (rules_at rule_table sel) p =? 0).
Proof.
  intros Hsel Hin He.
  rewrite (found_error_by_silent_run s2n_realloc_ok
             (fun alloc => s2n_security_policy_validate_security_rules alloc
                             rules_count_max rule_table (Some p)));
    [ | apply flag_safe_validate_security_rules
      | apply silent_agree_validate_security_rules ].
  rewrite (validate_security_rules_records always_grows rules_count_max rule_table
             (fun _ => eq_refl) p sel _ Hsel Hin He (silenced_writable r)).
  simpl snd.
  now rewrite record_lines_found_error, <- active_violation_lines_length.
Qed.

(** X3: when a rule can evaluate every entry of a policy, the flag after
    [s2n_security_rule_validate_policy] is the flag before, or-ed with
    "some entry failed its predicate"; the same holds of
    [s2n_security_policy_validate_security_rules] and the entries failed
    under some active rule.  This holds with and without capture and
    whatever the allocator does. *)
Theorem found_error_is_the_verdict (s2n_realloc_ok : nat -> bool)
    (rules_count_max : nat) (rule_table : list s2n_security_rule)
    (p : s2n_security_policy) (r : s2n_security_rule_result) :
  (forall rule, policy_evaluable rule p = true ->
      found_error
        (snd (s2n_security_rule_validate_policy s2n_realloc_ok (Some rule) (Some p) r))
      = found_error r || negb (failed_count rule p =? 0))
  /\ (forall sel,
         s2n_security_policy_get_security_rules rules_count_max rule_table (Some p)
           rules_count_max = S2N_RESULT_OK sel ->
         Forall (fun ptr => ptr < List.length rule_table) sel ->
         forallb (fun rule => policy_evaluable rule p) (rules_at rule_table sel)
         = true ->
         found_error
           (snd (s2n_security_policy_validate_security_rules s2n_realloc_ok
                   rules_count_max rule_table (Some p) r))
         = found_error r
           || negb (active_failed_count (rules_at rule_table sel) p =? 0)).
Proof.
  split.
  - intros rule He. now apply validate_policy_flag.
  - intros sel Hsel Hin He. now apply validate_security_rules_flag.
Qed.

(** ** The registry *)

(** C3: the rule table has exactly one entry, named "Perfect Forward
    Secrecy".  On a cipher suite with a key-exchange descriptor its
    cipher-suite validator answers with the descriptor's [is_ephemeral]
    flag, so the suite is valid exactly when the flag is set; its three
    other validators answer valid on every input. *)
Theorem registry_is_perfect_forward_secrecy :
  security_rule_definitions = [perfect_forward_secrecy]
  /\ List.length security_rule_definitions = 1
  /\ rule_name perfect_forward_secrecy = "Perfect Forward Secrecy"
  /\ (forall name kex valid,
         validate_cipher_suite perfect_forward_secrecy
           (Some {| cipher_suite_name := name; key_exchange_alg := Some kex |}) valid
         = S2N_RESULT_OK (is_ephemeral kex))
  /\ (forall sig_scheme valid,
         validate_sig_scheme perfect_forward_secrecy sig_scheme valid
         = S2N_RESULT_OK true)
  /\ (forall sig_scheme valid,
         validate_cert_sig_scheme perfect_forward_secrecy sig_scheme valid
         = S2N_RESULT_OK true)
  /\ (forall curve valid,
         validate_curve perfect_forward_secrecy curve valid = S2N_RESULT_OK true).
Proof. repeat split. Qed.

(** ** Further properties: the verdict of Perfect Forward Secrecy *)

Lemma failed_from_always_valid {A} (validate : option A -> bool -> s2n_result bool) :
  (forall x v, validate x v = S2N_RESULT_OK true) ->
  forall l i, failed_from validate i l = [].
Proof.
  intros H. unfold failed_from. induction l as [| x l IH]; intros i; simpl; trivial.
  rewrite IH. destruct x as [a |]; simpl; trivial. now rewrite H.
Qed.

Lemma failed_from_forward_secret l :
  forall i,
    List.length (failed_from s2n_security_rule_validate_forward_secret i l)
    = List.length (filter non_ephemeral l).
Proof.
  unfold failed_from. induction l as [| x l IH]; intros i; simpl; trivial.
  rewrite length_app, IH.
  destruct x as [[name [[[] ] |]] |]; simpl; reflexivity.
Qed.

Lemma filter_nonempty_existsb {A} (f : A -> bool) l :
  negb (List.length (filter f l) =? 0) = existsb f l.
Proof.
  induction l as [| x l IH]; simpl; trivial. destruct (f x); simpl; trivial.
Qed.

Lemma failed_count_forward_secrecy p :
  failed_count perfect_forward_secrecy p
  = List.length (filter non_ephemeral (cipher_suite_entries p)).
Proof.
  unfold failed_count, failed. simpl.
  rewrite failed_from_forward_secret.
  rewrite !(failed_from_always_valid s2n_security_rule_all_sig_schemes)
    by reflexivity.
  rewrite (failed_from_always_valid s2n_security_rule_all_curves) by reflexivity.
  simpl. lia.
Qed.

Lemma set_bits_below_1 flags :
  set_bits_below 1 flags = if N.odd flags then [0] else [].
Proof.
  rewrite set_bits_below_S, N.bit0_odd. unfold set_bits_below. simpl.
  now destruct (N.odd flags).
Qed.

(** X12: what the rule of the file decides.  On a policy that Perfect
    Forward Secrecy can evaluate, the flag after
    [s2n_security_rule_validate_policy] with that rule is the flag before,
    or-ed with "some cipher suite of the policy has a key exchange that is
    not ephemeral"; after [s2n_security_policy_validate_security_rules] with
    the table of the file it is the same when bit 0 of the policy's flags is
    set, and the flag before when it is not.  Signature schemes and curves
    play no part, nor do capture and the allocator. *)
Theorem forward_secrecy_verdict (s2n_realloc_ok : nat -> bool)
    (p : s2n_security_policy) (r : s2n_security_rule_result) :
  policy_evaluable perfect_forward_secrecy p = true ->
  found_error
    (snd (s2n_security_rule_validate_policy s2n_realloc_ok
            (Some perfect_forward_secrecy) (Some p) r))
  = found_error r || existsb non_ephemeral (cipher_suite_entries p)
  /\ found_error
       (snd (s2n_security_policy_validate_security_rules s2n_realloc_ok
               S2N_SECURITY_RULES_COUNT security_rule_definitions (Some p) r))
     = found_error r
       || (N.odd (rules p) && existsb non_ephemeral (cipher_suite_entries p)).
Proof.
  intros He. split.
  - rewrite (validate_policy_flag s2n_realloc_ok _ p r He).
    now rewrite failed_count_forward_secrecy, filter_nonempty_existsb.
  - assert (Hsel : s2n_security_policy_get_security_rules S2N_SECURITY_RULES_COUNT
                     security_rule_definitions (Some p) S2N_SECURITY_RULES_COUNT
                   = S2N_RESULT_OK (if N.odd (rules p) then [0] else [])).
    { rewrite get_security_rules_select. unfold S2N_SECURITY_RULES_COUNT.
      rewrite set_bits_below_1. now destruct (N.odd (rules p)). }
    rewrite (validate_security_rules_flag s2n_realloc_ok _ _ p _ r Hsel).
    + destruct (N.odd (rules p)); simpl.
      * unfold active_failed_count. simpl.
        now rewrite Nat.add_0_r, failed_count_forward_secrecy, filter_nonempty_existsb.
      * reflexivity.
    + destruct (N.odd (rules p)); repeat constructor.
    + destruct (N.odd (rules p)); simpl; [ now rewrite He | reflexivity ].
Qed.

(** ** The end-to-end example *)

(** C7, as amended: on the policy "test_all_ciphers" with the Perfect
    Forward Secrecy rule active, the cipher suites DHE_SUITE and RSA_SUITE,
    one signature scheme, one curve and no certificate-signature list, the
    validation succeeds with [found_error] set; after
    [s2n_security_rule_result_init_output] the buffer holds exactly one
    line, followed by one line break:
    "Perfect Forward Secrecy: policy test_all_ciphers: cipher suite: RSA_SUITE (#2)",
    with a colon after the category and the 1-based position of the suite;
    without capture the buffer stays empty. *)
Theorem test_all_ciphers_example (sig_scheme : s2n_signature_scheme)
    (curve : s2n_ecc_named_curve) :
  s2n_security_rule_result_init_output always_grows s2n_security_rule_result_zero
  = (Returns (S2N_RESULT_OK tt), capturing_result)
  /\ s2n_security_policy_validate_security_rules always_grows
       S2N_SECURITY_RULES_COUNT security_rule_definitions
       (Some (test_all_ciphers sig_scheme curve)) capturing_result
     = (Returns (S2N_RESULT_OK tt),
        {| found_error := true;
           write_output := true;
           output :=
             {| stuffer_data :=
                  ("Perfect Forward Secrecy: policy test_all_ciphers: cipher suite: RSA_SUITE (#2)"
                     ++ newline)%string;
                growable := true |} |})
  /\ s2n_security_policy_validate_security_rules always_grows
       S2N_SECURITY_RULES_COUNT security_rule_definitions
       (Some (test_all_ciphers sig_scheme curve)) s2n_security_rule_result_zero
     = (Returns (S2N_RESULT_OK tt),
        {| found_error := true; write_output := false; output := s2n_stuffer_zero |}).
Proof. repeat split. Qed.

(** ** Where the code departs from the examples of the specification *)

(** The text of the example is not the line of the specification: the code
    prints a colon after "cipher suite", and a line break at the end. *)
Lemma example_text_differs_from_the_spec :
  stuffer_data
    (output
       (snd (s2n_security_policy_validate_security_rules always_grows
               S2N_SECURITY_RULES_COUNT security_rule_definitions
               (Some (test_all_ciphers rsa_pss_rsae_sha256 secp256r1))
               capturing_result)))
  = ("Perfect Forward Secrecy: policy test_all_ciphers: cipher suite: RSA_SUITE (#2)"
       ++ newline)%string
  /\ String.eqb
       (stuffer_data
          (output
             (snd (s2n_security_policy_validate_security_rules always_grows
                     S2N_SECURITY_RULES_COUNT security_rule_definitions
                     (Some (test_all_ciphers rsa_pss_rsae_sha256 secp256r1))
                     capturing_result))))
       example_line_of_the_spec = false
  /\ String.eqb
       (stuffer_data
          (output
             (snd (s2n_security_policy_validate_security_rules always_grows
                     S2N_SECURITY_RULES_COUNT security_rule_definitions
                     (Some (test_all_ciphers rsa_pss_rsae_sha256 secp256r1))
                     capturing_result))))
       (example_line_of_the_spec ++ newline) = false.
Proof. repeat split. Qed.

(** Bit 1 of the flags names an identifier outside the one-entry table; the
    selection ignores it and the validation succeeds.  The same holds, for
    every count from 1 to 64, of the first bit past the count. *)
Lemma bit_outside_the_table_is_ignored :
  N.testbit 2 1 = true
  /\ List.length security_rule_definitions = 1
  /\ s2n_security_policy_get_security_rules S2N_SECURITY_RULES_COUNT
       security_rule_definitions (Some (policy_of_rules 2))
       S2N_SECURITY_RULES_COUNT = S2N_RESULT_OK []
  /\ s2n_security_policy_validate_security_rules always_grows
       S2N_SECURITY_RULES_COUNT security_rule_definitions
       (Some (policy_of_rules 2)) s2n_security_rule_result_zero
     = (Returns (S2N_RESULT_OK tt), s2n_security_rule_result_zero)
  /\ forallb
       (fun count =>
          match s2n_security_policy_get_security_rules count
                  security_rule_definitions
                  (Some (policy_of_rules (2 ^ N.of_nat count))) count with
          | S2N_RESULT_OK [] => true
          | _ => false
          end) (seq 1 64) = true.
Proof. repeat split. Qed.

(** The flags with bits 1 and 3 have two bits set and select no rule from
    the table of the file; whatever the count, they never select two. *)
Lemma bits_1_and_3_select_nothing :
  set_bits_below 64 10 = [1; 3]
  /\ s2n_security_policy_get_security_rules S2N_SECURITY_RULES_COUNT
       security_rule_definitions (Some (policy_of_rules 10))
       S2N_SECURITY_RULES_COUNT = S2N_RESULT_OK []
  /\ forallb
       (fun count =>
          match s2n_security_policy_get_security_rules count
                  security_rule_definitions (Some (policy_of_rules 10)) count with
          | S2N_RESULT_OK sel => negb (List.length sel =? 2)
          | S2N_RESULT_ERROR _ => true
          end) (seq 0 65) = true.
Proof. repeat split. Qed.

(** Two violations in one category, and the scan goes on after each. *)
Example two_violations_text :
  s2n_security_policy_validate_security_rules always_grows
    S2N_SECURITY_RULES_COUNT security_rule_definitions (Some two_violations)
    capturing_result
  = (Returns (S2N_RESULT_OK tt),
     {| found_error := true;
        write_output := true;
        output :=
          {| stuffer_data :=
               ("Perfect Forward Secrecy: policy unnamed: cipher suite: RSA_SUITE (#1)"
                  ++ newline
                  ++ "Perfect Forward Secrecy: policy unnamed: cipher suite: RSA_SUITE (#3)"
                  ++ newline)%string;
             growable := true |} |}).
Proof. reflexivity. Qed.

(** ** Witnesses *)

Lemma found_error_monotone_witness :
  (forall condition format vargs,
      found_error
        (snd (s2n_security_rule_result_process always_grows condition format vargs
                (set_found_error true capturing_result))) = true)
  /\ (forall rule policy,
         found_error
           (snd (s2n_security_rule_validate_policy always_grows rule policy
                   (set_found_error true capturing_result))) = true)
  /\ (forall policy,
         found_error
           (snd (s2n_security_policy_validate_security_rules always_grows
                   S2N_SECURITY_RULES_COUNT security_rule_definitions policy
                   (set_found_error true capturing_result))) = true)
  /\ found_error
       (snd (s2n_security_rule_result_init_output always_grows
               (set_found_error true capturing_result))) = true
  /\ found_error
       (snd (s2n_security_rule_result_free (set_found_error true capturing_result)))
     = false.
Proof.
  apply (found_error_monotone always_grows S2N_SECURITY_RULES_COUNT
           security_rule_definitions (set_found_error true capturing_result)).
  reflexivity.
Defined.

Lemma no_rule_selected_witness :
  s2n_security_policy_get_security_rules S2N_SECURITY_RULES_COUNT
    security_rule_definitions (Some (policy_of_rules 0)) 1 = S2N_RESULT_OK []
  /\ s2n_security_policy_validate_security_rules always_grows
       S2N_SECURITY_RULES_COUNT security_rule_definitions
       (Some (policy_of_rules 0)) capturing_result
     = (Returns (S2N_RESULT_OK tt), capturing_result).
Proof.
  apply (no_rule_selected always_grows S2N_SECURITY_RULES_COUNT
           security_rule_definitions (policy_of_rules 0) 1 capturing_result).
  reflexivity.
Defined.

Lemma selection_walks_low_bits_witness :
  s2n_security_policy_get_security_rules 4 four_rules (Some (policy_of_rules 10)) 4
  = S2N_RESULT_OK [1; 3]
  /\ rules_at four_rules [1; 3] = [accept_all "rule1"; accept_all "rule3"].
Proof.
  apply (proj2 (proj2 (selection_walks_low_bits 4 four_rules (policy_of_rules 10) 4)));
    [ reflexivity | lia | reflexivity | reflexivity ].
Defined.

Lemma selection_hard_errors_witness :
  (s2n_security_policy_get_security_rules 3 security_rule_definitions
     (Some (policy_of_rules 4)) 3 = S2N_RESULT_ERROR S2N_ERR_SAFETY
   /\ s2n_security_policy_validate_security_rules always_grows 3
        security_rule_definitions (Some (policy_of_rules 4))
        s2n_security_rule_result_zero
      = (Returns (S2N_RESULT_ERROR S2N_ERR_SAFETY), s2n_security_rule_result_zero))
  /\ s2n_security_policy_get_security_rules 3 four_rules
       (Some (policy_of_rules 7)) 2 = S2N_RESULT_ERROR S2N_ERR_SAFETY.
Proof.
  split.
  - apply (proj1 (selection_hard_errors always_grows 3 security_rule_definitions
                    (policy_of_rules 4) 3 s2n_security_rule_result_zero)).
    exists 2. repeat split; simpl; lia.
  - apply (proj1 (proj2 (selection_hard_errors always_grows 3 four_rules
                           (policy_of_rules 7) 2 s2n_security_rule_result_zero))).
    simpl. lia.
Defined.

Lemma every_violation_recorded_witness :
  s2n_security_policy_validate_security_rules always_grows
    S2N_SECURITY_RULES_COUNT security_rule_definitions (Some two_violations)
    capturing_result
  = (Returns (S2N_RESULT_OK tt),
     record_lines
       (active_violation_lines (rules_at security_rule_definitions [0]) two_violations)
       capturing_result)
  /\ List.length
       (active_violation_lines (rules_at security_rule_definitions [0]) two_violations)
     = 2.
Proof.
  destruct (every_violation_recorded always_grows S2N_SECURITY_RULES_COUNT
              security_rule_definitions two_violations [0] capturing_result)
    as (H1 & _ & H3 & _);
    [ reflexivity | reflexivity | repeat constructor | reflexivity | reflexivity | ].
  split; [ exact H1 | rewrite H3; reflexivity ].
Defined.

Lemma missing_preference_lists_witness :
  s2n_security_rule_validate_policy always_grows (Some perfect_forward_secrecy)
    (Some (test_all_ciphers rsa_pss_rsae_sha256 secp256r1)) capturing_result
  = (Returns (S2N_RESULT_OK tt),
     record_lines
       (cipher_suite_lines perfect_forward_secrecy
          (test_all_ciphers rsa_pss_rsae_sha256 secp256r1)
        ++ sig_scheme_lines perfect_forward_secrecy
             (test_all_ciphers rsa_pss_rsae_sha256 secp256r1)
        ++ curve_lines perfect_forward_secrecy
             (test_all_ciphers rsa_pss_rsae_sha256 secp256r1))
       capturing_result)
  /\ s2n_security_rule_validate_policy always_grows (Some perfect_forward_secrecy)
       (Some without_lists) capturing_result
     = (Returns (S2N_RESULT_ERROR S2N_ERR_NULL), capturing_result)
  /\ s2n_security_rule_validate_policy always_grows (Some perfect_forward_secrecy)
       (Some no_signature_list) capturing_result
     = (Returns (S2N_RESULT_ERROR S2N_ERR_NULL),
        record_lines (cipher_suite_lines perfect_forward_secrecy no_signature_list)
          capturing_result)
  /\ s2n_security_rule_validate_policy always_grows (Some perfect_forward_secrecy)
       (Some no_curve_list) capturing_result
     = (Returns (S2N_RESULT_ERROR S2N_ERR_NULL),
        record_lines
          (cipher_suite_lines perfect_forward_secrecy no_curve_list
           ++ sig_scheme_lines perfect_forward_secrecy no_curve_list
           ++ cert_sig_scheme_lines perfect_forward_secrecy no_curve_list)
          capturing_result).
Proof.
  repeat apply conj.
  - apply (proj1 (missing_preference_lists always_grows perfect_forward_secrecy
                    (test_all_ciphers rsa_pss_rsae_sha256 secp256r1)
                    capturing_result));
      [ reflexivity | reflexivity | reflexivity | intros _; reflexivity ].
  - apply (proj1 (proj2 (missing_preference_lists always_grows perfect_forward_secrecy
                           without_lists capturing_result))).
    reflexivity.
  - apply (proj2 (proj1 (proj2 (proj2
             (missing_preference_lists always_grows perfect_forward_secrecy
                no_signature_list capturing_result))) eq_refl)
             {| suites := [Some RSA_SUITE] |} eq_refl);
      [ reflexivity | reflexivity | intros _; reflexivity ].
  - apply (proj2 (proj2 (proj2 (proj2
             (missing_preference_lists always_grows perfect_forward_secrecy
                no_curve_list capturing_result))) eq_refl)
             {| suites := [Some RSA_SUITE] |}
             {| signature_schemes := [Some rsa_pss_rsae_sha256] |} eq_refl eq_refl);
      [ reflexivity | reflexivity | reflexivity | reflexivity
      | intros _; reflexivity ].
Defined.

(** ** Witnesses of the further properties *)

Lemma silent_validation_ignores_the_allocator_witness :
  s2n_security_rule_validate_policy always_grows (Some perfect_forward_secrecy)
    (Some two_violations) s2n_security_rule_result_zero
  = s2n_security_rule_validate_policy never_grows (Some perfect_forward_secrecy)
      (Some two_violations) s2n_security_rule_result_zero.
Proof.
  apply (proj1 (silent_validation_ignores_the_allocator always_grows
                  S2N_SECURITY_RULES_COUNT security_rule_definitions never_grows
                  (Some perfect_forward_secrecy) (Some two_violations)
                  s2n_security_rule_result_zero eq_refl)).
Defined.

Lemma found_error_is_the_verdict_witness :
  found_error
    (snd (s2n_security_rule_validate_policy never_grows
            (Some perfect_forward_secrecy) (Some two_violations) capturing_result))
  = found_error capturing_result
    || negb (failed_count perfect_forward_secrecy two_violations =? 0).
Proof.
  apply (proj1 (found_error_is_the_verdict never_grows S2N_SECURITY_RULES_COUNT
                  security_rule_definitions two_violations capturing_result)).
  reflexivity.
Defined.

Lemma capture_keeps_the_return_value_witness :
  fst (s2n_security_rule_validate_policy always_grows (Some perfect_forward_secrecy)
         (Some two_violations) s2n_security_rule_result_zero)
  = fst (s2n_security_rule_validate_policy always_grows
           (Some perfect_forward_secrecy) (Some two_violations) capturing_result).
Proof.
  apply (proj1 (capture_keeps_the_return_value always_grows
                  S2N_SECURITY_RULES_COUNT security_rule_definitions
                  (Some perfect_forward_secrecy) (Some two_violations)
                  s2n_security_rule_result_zero capturing_result
                  (fun _ => eq_refl) (silenced_writable s2n_security_rule_result_zero)
                  (fun _ => eq_refl))).
Defined.

Lemma validation_stops_at_a_bad_cipher_suite_witness :
  s2n_security_rule_validate_policy always_grows (Some perfect_forward_secrecy)
    (Some (with_suites [Some RSA_SUITE; Some NO_KEX_SUITE; Some RSA_SUITE]))
    capturing_result
  = (Returns (S2N_RESULT_ERROR S2N_ERR_NULL),
     record_lines
       (map (fun ia =>
               diagnostic_line (rule_name perfect_forward_secrecy)
                 (policy_name_of
                    (with_suites [Some RSA_SUITE; Some NO_KEX_SUITE; Some RSA_SUITE]))
                 "cipher suite" (cipher_suite_name (snd ia)) (fst ia))
            (failed (validate_cipher_suite perfect_forward_secrecy) [Some RSA_SUITE]))
       capturing_result).
Proof.
  apply (validation_stops_at_a_bad_cipher_suite always_grows perfect_forward_secrecy
           (with_suites [Some RSA_SUITE; Some NO_KEX_SUITE; Some RSA_SUITE])
           {| suites := [Some RSA_SUITE; Some NO_KEX_SUITE; Some RSA_SUITE] |}
           [Some RSA_SUITE] [Some RSA_SUITE] (Some NO_KEX_SUITE) S2N_ERR_NULL
           capturing_result (fun _ => eq_refl) (fun _ => eq_refl));
    reflexivity.
Defined.

Lemma successive_validations_accumulate_witness :
  s2n_security_rule_validate_policy always_grows (Some perfect_forward_secrecy)
    (Some (test_all_ciphers rsa_pss_rsae_sha256 secp256r1))
    (snd (s2n_security_rule_validate_policy always_grows
            (Some perfect_forward_secrecy) (Some two_violations) capturing_result))
  = (Returns (S2N_RESULT_OK tt),
     record_lines
       (violation_lines perfect_forward_secrecy two_violations
        ++ violation_lines perfect_forward_secrecy
             (test_all_ciphers rsa_pss_rsae_sha256 secp256r1))
       capturing_result).
Proof.
  apply (successive_validations_accumulate always_grows perfect_forward_secrecy
           perfect_forward_secrecy two_violations
           (test_all_ciphers rsa_pss_rsae_sha256 secp256r1) capturing_result
           (fun _ => eq_refl) (fun _ => eq_refl));
    reflexivity.
Defined.

Lemma missing_lists_are_found_late_witness :
  s2n_security_rule_validate_policy always_grows (Some perfect_forward_secrecy)
    (Some no_signature_list) capturing_result
  = (Returns (S2N_RESULT_ERROR S2N_ERR_NULL),
     record_lines (cipher_suite_lines perfect_forward_secrecy no_signature_list)
       capturing_result)
  /\ s2n_security_rule_validate_policy always_grows (Some perfect_forward_secrecy)
       (Some no_curve_list) capturing_result
     = (Returns (S2N_RESULT_ERROR S2N_ERR_NULL),
        record_lines
          (cipher_suite_lines perfect_forward_secrecy no_curve_list
           ++ sig_scheme_lines perfect_forward_secrecy no_curve_list
           ++ cert_sig_scheme_lines perfect_forward_secrecy no_curve_list)
          capturing_result).
Proof.
  split.
  - apply (proj1 (missing_lists_are_found_late always_grows perfect_forward_secrecy
                    no_signature_list {| suites := [Some RSA_SUITE] |}
                    capturing_result (fun _ => eq_refl) (fun _ => eq_refl)
                    eq_refl eq_refl)).
    reflexivity.
  - apply (proj2 (missing_lists_are_found_late always_grows perfect_forward_secrecy
                    no_curve_list {| suites := [Some RSA_SUITE] |}
                    capturing_result (fun _ => eq_refl) (fun _ => eq_refl)
                    eq_refl eq_refl)
             {| signature_schemes := [Some rsa_pss_rsae_sha256] |});
      reflexivity.
Defined.

Lemma validation_stops_at_a_bad_curve_witness :
  s2n_security_rule_validate_policy always_grows (Some perfect_forward_secrecy)
    (Some null_curve) capturing_result
  = (Returns (S2N_RESULT_ERROR S2N_ERR_NULL),
     record_lines
       (cipher_suite_lines perfect_forward_secrecy null_curve
        ++ sig_scheme_lines perfect_forward_secrecy null_curve
        ++ cert_sig_scheme_lines perfect_forward_secrecy null_curve
        ++ map (fun ia =>
                  diagnostic_line (rule_name perfect_forward_secrecy)
                    (policy_name_of null_curve) "curve" (curve_name (snd ia))
                    (fst ia))
               (failed (validate_curve perfect_forward_secrecy) [Some secp256r1]))
       capturing_result).
Proof.
  apply (validation_stops_at_a_bad_curve always_grows perfect_forward_secrecy
           null_curve {| suites := [Some RSA_SUITE] |}
           {| signature_schemes := [Some rsa_pss_rsae_sha256] |}
           {| ecc_curves := [Some secp256r1; None; Some secp256r1] |}
           [Some secp256r1] [Some secp256r1] None S2N_ERR_NULL capturing_result
           (fun _ => eq_refl) (fun _ => eq_refl));
    reflexivity.
Defined.

Lemma refused_growth_stops_the_validation_witness :
  s2n_security_rule_validate_policy never_grows (Some perfect_forward_secrecy)
    (Some (with_suites [Some DHE_SUITE])) capturing_result
  = (Returns (S2N_RESULT_OK tt), capturing_result)
  /\ s2n_security_rule_validate_policy never_grows (Some perfect_forward_secrecy)
       (Some two_violations) capturing_result
     = (Returns (S2N_RESULT_ERROR S2N_ERR_ALLOC),
        set_found_error true capturing_result).
Proof.
  split.
  - apply (proj1 (refused_growth_stops_the_validation never_grows
                    perfect_forward_secrecy (with_suites [Some DHE_SUITE])
                    capturing_result (fun _ => eq_refl) eq_refl eq_refl)).
    reflexivity.
  - apply (proj2 (refused_growth_stops_the_validation never_grows
                    perfect_forward_secrecy two_violations capturing_result
                    (fun _ => eq_refl) eq_refl eq_refl)).
    apply Nat.lt_0_succ.
Defined.

Lemma selection_stays_inside_the_table_witness :
  (forall p,
      s2n_security_policy_get_security_rules S2N_SECURITY_RULES_COUNT
        security_rule_definitions (Some p) S2N_SECURITY_RULES_COUNT
      = S2N_RESULT_OK (set_bits_below S2N_SECURITY_RULES_COUNT (rules p))
      /\ Forall (fun ptr => ptr < List.length security_rule_definitions)
                (set_bits_below S2N_SECURITY_RULES_COUNT (rules p)))
  /\ (forall policy r,
         fst (s2n_security_policy_validate_security_rules always_grows
                S2N_SECURITY_RULES_COUNT security_rule_definitions policy r)
         <> Undefined).
Proof.
  apply (selection_stays_inside_the_table always_grows S2N_SECURITY_RULES_COUNT
           security_rule_definitions).
  apply le_n.
Defined.

Lemma identifier_one_past_the_table_is_selected_witness :
  s2n_security_policy_get_security_rules 2 security_rule_definitions
    (Some (with_rules 2 two_violations)) 2 = S2N_RESULT_OK [1]
  /\ s2n_security_policy_validate_security_rules always_grows 2
       security_rule_definitions (Some (with_rules 2 two_violations))
       s2n_security_rule_result_zero
     = (Undefined, s2n_security_rule_result_zero)
  /\ s2n_security_policy_validate_security_rules always_grows 2
       security_rule_definitions (Some (policy_of_rules 2))
       s2n_security_rule_result_zero
     = (Returns (S2N_RESULT_OK tt), s2n_security_rule_result_zero).
Proof.
  destruct (identifier_one_past_the_table_is_selected always_grows 2
              security_rule_definitions (with_rules 2 two_violations)
              s2n_security_rule_result_zero (le_n 2) eq_refl)
    as (H1 & _ & H3 & _).
  destruct (identifier_one_past_the_table_is_selected always_grows 2
              security_rule_definitions (policy_of_rules 2)
              s2n_security_rule_result_zero (le_n 2) eq_refl)
    as (_ & _ & _ & _ & H5).
  repeat apply conj.
  - exact H1.
  - exact (H3 _ _ _ eq_refl eq_refl).
  - exact (H5 _ _ _ eq_refl eq_refl eq_refl eq_refl eq_refl eq_refl eq_refl).
Defined.

Lemma forward_secrecy_verdict_witness :
  found_error
    (snd (s2n_security_rule_validate_policy never_grows
            (Some perfect_forward_secrecy) (Some two_violations) capturing_result))
  = found_error capturing_result
    || existsb non_ephemeral (cipher_suite_entries two_violations)
  /\ found_error
       (snd (s2n_security_policy_validate_security_rules never_grows
               S2N_SECURITY_RULES_COUNT security_rule_definitions
               (Some two_violations) capturing_result))
     = found_error capturing_result
       || (N.odd (rules two_violations)
           && existsb non_ephemeral (cipher_suite_entries two_violations)).
Proof.
  apply (forward_secrecy_verdict never_grows two_violations capturing_result).
  reflexivity.
Defined.

